(** * kiwi.partitioner.msdos: the msdos (MBR) partition table builder

    A shallow embedding of [src/kiwi/partitioner/msdos.py], class
    [PartitionerMsDos], and the properties of its slot allocation, flag
    application and fdisk script generation.

    The Python object is a record; its methods are computations in a
    state-and-exception monad over the object and the world outside it
    (the log, the files written, the commands run). *)

From Stdlib Require Import ZArith Ascii String.
From stdpp Require Import base strings gmap list pretty.

Open Scope Z_scope.

(** ** Python values *)

(** The dynamically typed values that reach the partitioner: [mbsize] is an
    int or the string ['all_free'], [start_sector] an int or [None], the
    entries of [flag_map] are [True], a string or [None]. *)
Inductive pyval : Type :=
| PInt (z : Z)
| PStr (s : string)
| PBool (b : bool)
| PNone.

#[global] Instance pyval_eq_dec : EqDecision pyval.
Proof. solve_decision. Defined.

(** Python truth value ([if v:], [not v]). *)
Definition truthy (v : pyval) : bool :=
  match v with
  | PInt z => negb (z =? 0)
  | PStr s => negb (String.eqb s "")
  | PBool b => b
  | PNone => false
  end.

(** [format(v)], also what ['{0}'.format(v)], ['%s' % v] and ['%d' % v]
    (for an int) produce. *)
Definition format (v : pyval) : string :=
  match v with
  | PInt z => pretty z
  | PStr s => s
  | PBool true => "True"
  | PBool false => "False"
  | PNone => "None"
  end.

(** [v == 'all_free'] *)
Definition is_all_free (v : pyval) : bool :=
  match v with
  | PStr s => String.eqb s "all_free"
  | _ => false
  end.

(** ** Exceptions

    Instances of Python's [Exception]: the error the partitioner raises
    itself and whatever [Command.run] raises. *)
Inductive exn : Type :=
| KiwiPartitionerMsDosFlagError (msg : string)
| CommandException (cls msg : string).

Inductive outcome (A : Type) : Type :=
| Ok (a : A)
| Raise (e : exn).
Arguments Ok {A} a.
Arguments Raise {A} e.

(** ** The fdisk input script *)

Inductive part_kind : Type := Primary | Extended | Logical.

#[global] Instance part_kind_eq_dec : EqDecision part_kind.
Proof. solve_decision. Defined.

(** The three [format] arguments of the script template together with the
    template chosen. *)
Record fdisk_script : Type := FdiskScript {
  fs_kind : part_kind;
  fs_slot : Z;
  fs_start : string;
  fs_size : string
}.

Definition nl : string := String "010"%char "".

(** The text written to the temporary file:
    ['n\np\n{0}\n{1}\n{2}\nw\nq\n'], ['n\ne\n{0}\n{1}\n{2}\nw\nq\n'] and
    ['n\n{0}\n{1}\n{2}\nw\nq\n']. *)
Definition script_text (s : fdisk_script) : string :=
  "n" +:+ nl +:+
  match fs_kind s with
  | Primary => "p" +:+ nl
  | Extended => "e" +:+ nl
  | Logical => ""
  end +:+
  format (PInt (fs_slot s)) +:+ nl +:+
  fs_start s +:+ nl +:+
  fs_size s +:+ nl +:+
  "w" +:+ nl +:+ "q" +:+ nl.

(** The first character of a string is a decimal digit or a minus sign:
    what the third line of a logical script starts with, where a primary
    or extended script has its letter. *)
Definition is_numeric (c : ascii) : bool :=
  match c with
  | "0" | "1" | "2" | "3" | "4" | "5" | "6" | "7" | "8" | "9" | "-" => true
  | _ => false
  end%char.

Definition head_numeric (s : string) : bool :=
  match s with
  | String c _ => is_numeric c
  | EmptyString => false
  end.

(** ** The world outside the object *)

Inductive log_level : Type := DEBUG | WARNING.

Inductive event : Type :=
| ELog (lvl : log_level) (msg : string)
| EWrite (path : string) (script : fdisk_script)
| ERun (argv : list pyval) (failure : option exn).

Record World : Type := mkWorld {
  trace : list event;
  (* number of temporary files handed out so far *)
  tmp_files : nat;
  (* ghost: the arguments of every [set_flag] call entered so far *)
  set_flag_calls : list (Z * string)
}.

(** ** The object *)

Record PartitionerMsDos : Type := mkPartitioner {
  disk_device : string;
  partition_id : Z;
  start_sector : pyval;
  extended_layout : bool;
  flag_map : gmap string pyval
}.

Record machine : Type := mkMachine {
  self : PartitionerMsDos;
  world : World
}.

Definition M (A : Type) : Type := machine -> outcome A * machine.

#[global] Instance M_ret : MRet M := fun A a m => (Ok a, m).
#[global] Instance M_bind : MBind M := fun A B f c m =>
  match c m with
  | (Ok a, m') => f a m'
  | (Raise e, m') => (Raise e, m')
  end.

Definition raise {A} (e : exn) : M A := fun m => (Raise e, m).

(** [try: c except Exception: h] *)
Definition try_except {A} (c : M A) (h : M A) : M A := fun m =>
  match c m with
  | (Ok a, m') => (Ok a, m')
  | (Raise _, m') => h m'
  end.

Definition get_self : M PartitionerMsDos := fun m => (Ok (self m), m).

Definition set_partition_id (v : Z) : M unit := fun m =>
  (Ok tt,
   mkMachine
     (mkPartitioner (disk_device (self m)) v (start_sector (self m))
        (extended_layout (self m)) (flag_map (self m)))
     (world m)).

Definition set_start_sector (v : pyval) : M unit := fun m =>
  (Ok tt,
   mkMachine
     (mkPartitioner (disk_device (self m)) (partition_id (self m)) v
        (extended_layout (self m)) (flag_map (self m)))
     (world m)).

Definition emit (e : event) : M unit := fun m =>
  (Ok tt,
   mkMachine (self m)
     (mkWorld (trace (world m) ++ [e]) (tmp_files (world m))
        (set_flag_calls (world m)))).

Definition note_set_flag (partition_id : Z) (flag_name : string) : M unit :=
  fun m =>
  (Ok tt,
   mkMachine (self m)
     (mkWorld (trace (world m)) (tmp_files (world m))
        (set_flag_calls (world m) ++ [(partition_id, flag_name)]))).

Definition log_debug (msg : string) : M unit := emit (ELog DEBUG msg).
Definition log_warning (msg : string) : M unit := emit (ELog WARNING msg).

(** [for x in l: body(x)] *)
Fixpoint for_each {A} (l : list A) (body : A -> M unit) : M unit :=
  match l with
  | [] => mret tt
  | x :: l' => _ ← body x; for_each l' body
  end.

Module PartitionerBase.

(** Modelled from the spec: the constructor of the base class
    [kiwi.partitioner.base.PartitionerBase], which is not part of the
    sources at hand. The slot counter [partition_id] starts at 0; the disk
    target, the start sector and the layout mode are set once, from the
    constructor's arguments. *)
Definition init (device : string) (start_sector : pyval)
    (extended_layout : bool) : PartitionerMsDos :=
  mkPartitioner device 0 start_sector extended_layout ∅.

End PartitionerBase.

(** The dictionary literal of [post_init]. *)
Definition msdos_flag_map : gmap string pyval :=
  <["f.active" := PBool true]>
  (<["t.linux" := PStr "83"]>
  (<["t.swap" := PStr "82"]>
  (<["t.lvm" := PStr "8e"]>
  (<["t.raid" := PStr "fd"]>
  (<["t.efi" := PNone]>
  (<["t.csm" := PNone]>
  (<["t.prep" := PStr "41"]>
  (<["t.extended" := PStr "5"]> ∅)))))))).

Definition post_init (p : PartitionerMsDos) : PartitionerMsDos :=
  mkPartitioner (disk_device p) (partition_id p) (start_sector p)
    (extended_layout p) msdos_flag_map.

(** The second and third [format] arguments of the script templates:
    ['' if not self.start_sector else self.start_sector] and
    ['' if mbsize == 'all_free' else '+{0}M'.format(mbsize)]. *)
Definition start_token (start_sector : pyval) : string :=
  if negb (truthy start_sector) then "" else format start_sector.

Definition size_token (mbsize : pyval) : string :=
  if is_all_free mbsize then "" else "+" +:+ format mbsize +:+ "M".

(** The argument vectors handed to [Command.run]. *)
Definition parted_argv (device : string) (partition_id : Z) : list pyval :=
  [PStr "parted"; PStr device; PStr "set";
   PStr (format (PInt partition_id)); PStr "boot"; PStr "on"].

Definition sfdisk_argv (device : string) (partition_id : Z) (code : pyval)
    : list pyval :=
  [PStr "sfdisk"; PStr "-c"; PStr device;
   PStr (format (PInt partition_id)); code].

Definition fdisk_argv (device : string) (fdisk_config_file_path : string)
    : list pyval :=
  let bash_command :=
    "cat" +:+ " " +:+ fdisk_config_file_path +:+ " " +:+ "|" +:+ " " +:+
    "fdisk" +:+ " " +:+ device in
  [PStr "bash"; PStr "-c"; PStr bash_command].

(** ** Observations on a trace *)

(** The scripts written, in order. *)
Definition written (t : list event) : list fdisk_script :=
  omap (fun e => match e with EWrite _ s => Some s | _ => None end) t.

(** The argument vectors of the commands run, in order. *)
Definition commands (t : list event) : list (list pyval) :=
  omap (fun e => match e with ERun argv _ => Some argv | _ => None end) t.

(** The scripted invocation is the one command run through bash. *)
Definition is_fdisk_call (argv : list pyval) : bool :=
  match argv with
  | PStr prog :: _ => String.eqb prog "bash"
  | _ => false
  end.

(** The scripted fdisk invocations of a trace, and the other commands:
    the direct parted and sfdisk invocations of [set_flag]. *)
Definition fdisk_commands (t : list event) : list (list pyval) :=
  filter (fun argv => is_fdisk_call argv = true) (commands t).

Definition flag_commands (t : list event) : list (list pyval) :=
  filter (fun argv => is_fdisk_call argv = false) (commands t).

(** A flag-setting command addressed to slot [slot] of [device]. *)
Definition addresses (device : string) (slot : Z) (argv : list pyval)
    : Prop :=
  argv = parted_argv device slot \/
  exists code, argv = sfdisk_argv device slot code.

(** What a [set_flag] call for slot [slot] may leave in the trace. *)
Definition flag_event (device : string) (slot : Z) (e : event) : Prop :=
  match e with
  | ELog WARNING _ => True
  | ERun argv _ => addresses device slot argv
  | _ => False
  end.

Definition kind_slot (s : fdisk_script) : part_kind * Z :=
  (fs_kind s, fs_slot s).

(** A creation request: the arguments of one [create] call. *)
Record request : Type := Request {
  rq_name : string;
  rq_mbsize : pyval;
  rq_type_name : string;
  rq_flags : list string
}.

(** The requests of the end-to-end scenario. *)
Definition end_to_end : list request :=
  [Request "boot" (PInt 50) "t.linux" [];
   Request "swap" (PInt 2048) "t.swap" [];
   Request "root" (PStr "all_free") "t.linux" ["f.active"]].

(** Concrete collaborators: a [Command.run] that always returns, one that
    always raises, one that raises on the fdisk invocations only, and a
    numbering of the temporary files. *)
Definition command_error : exn :=
  CommandException "KiwiCommandError" "bash: exit code: 1".

Definition always_succeeds (history : list event) (argv : list pyval)
    : option exn := None.

Definition always_fails (history : list event) (argv : list pyval)
    : option exn := Some command_error.

Definition fdisk_always_fails (history : list event) (argv : list pyval)
    : option exn :=
  if is_fdisk_call argv then Some command_error else None.

(** A [Command.run] that raises on the parted invocations only. *)
Definition parted_fails (history : list event) (argv : list pyval)
    : option exn :=
  match argv with
  | PStr prog :: _ =>
      if String.eqb prog "parted" then Some command_error else None
  | _ => None
  end.

(** A [Command.run] that raises on the sfdisk invocations only. *)
Definition sfdisk_fails (history : list event) (argv : list pyval)
    : option exn :=
  match argv with
  | PStr prog :: _ =>
      if String.eqb prog "sfdisk" then Some command_error else None
  | _ => None
  end.

Definition tmp_path (n : nat) : string := "/tmp/kiwi_fdisk_" +:+ pretty n.

Section Partitioner.

(** The collaborators: what [Command.run] does with an argument vector,
    given everything that happened before ([None]: it returns normally), and
    the name of the n-th file handed out by [Temporary().new_file()]. *)
Variable Command_outcome : list event -> list pyval -> option exn.
Variable Temporary_name : nat -> string.

Definition Command_run (argv : list pyval) : M unit := fun m =>
  let r := Command_outcome (trace (world m)) argv in
  let m' :=
    mkMachine (self m)
      (mkWorld (trace (world m) ++ [ERun argv r]) (tmp_files (world m))
         (set_flag_calls (world m))) in
  match r with
  | None => (Ok tt, m')
  | Some e => (Raise e, m')
  end.

Definition Temporary_new_file : M string := fun m =>
  (Ok (Temporary_name (tmp_files (world m))),
   mkMachine (self m)
     (mkWorld (trace (world m)) (S (tmp_files (world m)))
        (set_flag_calls (world m)))).

Definition write_file (path : string) (s : fdisk_script) : M unit :=
  emit (EWrite path s).

Definition set_flag (partition_id : Z) (flag_name : string) : M unit :=
  _ ← note_set_flag partition_id flag_name;
  p ← get_self;
  match flag_map p !! flag_name with
  | None =>
      raise (KiwiPartitionerMsDosFlagError
               ("Unknown partition flag " +:+ flag_name))
  | Some code =>
      if truthy code then
        if String.eqb flag_name "f.active" then
          Command_run (parted_argv (disk_device p) partition_id)
        else
          Command_run (sfdisk_argv (disk_device p) partition_id code)
      else
        log_warning ("Flag " +:+ flag_name +:+ " ignored on msdos")
  end.

Definition resize_table (entries : pyval) : M unit := mret tt.

Definition _call_fdisk (fdisk_config_file_path : string) : M unit :=
  p ← get_self;
  try_except
    (Command_run (fdisk_argv (disk_device p) fdisk_config_file_path))
    (log_debug "potential fdisk errors were ignored").

Definition _set_all_flags (type_name : string) (flags : list string)
    : M unit :=
  p ← get_self;
  _ ← set_flag (partition_id p) type_name;
  if bool_decide (flags <> []) then
    for_each flags (fun flag_name =>
      p ← get_self;
      set_flag (partition_id p) flag_name)
  else mret tt.

Definition _create_primary (name : string) (mbsize : pyval)
    (type_name : string) (flags : list string) : M unit :=
  p ← get_self;
  _ ← set_partition_id (partition_id p + 1);
  fdisk_input ← Temporary_new_file;
  p ← get_self;
  _ ← (if 1 <? partition_id p then set_start_sector PNone else mret tt);
  p ← get_self;
  _ ← log_debug
        (name +:+ ": fdisk: n p " +:+ format (PInt (partition_id p)) +:+
         " cur_position +" +:+ format mbsize +:+ "M w q");
  _ ← write_file fdisk_input
        (FdiskScript Primary (partition_id p)
           (start_token (start_sector p)) (size_token mbsize));
  _ ← _call_fdisk fdisk_input;
  _set_all_flags type_name flags.

Definition _create_extended (name : string) : M unit :=
  p ← get_self;
  _ ← set_partition_id (partition_id p + 1);
  fdisk_input ← Temporary_new_file;
  p ← get_self;
  _ ← log_debug
        (name +:+ ": fdisk: n e " +:+ format (PInt (partition_id p)) +:+
         " cur_position +all_freeM w q");
  _ ← write_file fdisk_input (FdiskScript Extended (partition_id p) "" "");
  _call_fdisk fdisk_input.

Definition _create_logical (name : string) (mbsize : pyval)
    (type_name : string) (flags : list string) : M unit :=
  p ← get_self;
  _ ← set_partition_id (partition_id p + 1);
  fdisk_input ← Temporary_new_file;
  p ← get_self;
  _ ← log_debug
        (name +:+ ": fdisk: n " +:+ format (PInt (partition_id p)) +:+
         " cur_position +" +:+ format mbsize +:+ "M w q");
  _ ← write_file fdisk_input
        (FdiskScript Logical (partition_id p) "" (size_token mbsize));
  _ ← _call_fdisk fdisk_input;
  _set_all_flags type_name flags.

Definition create (name : string) (mbsize : pyval) (type_name : string)
    (flags : list string) : M unit :=
  p ← get_self;
  if extended_layout p then
    if partition_id p <? 3 then
      _create_primary name mbsize type_name flags
    else if partition_id p =? 3 then
      _ ← _create_extended name;
      _create_logical name mbsize type_name flags
    else if 3 <? partition_id p then
      _create_logical name mbsize type_name flags
    else mret tt
  else
    _create_primary name mbsize type_name flags.

(** ** Callers *)

Definition create_request (r : request) : M unit :=
  create (rq_name r) (rq_mbsize r) (rq_type_name r) (rq_flags r).

(** A sequence of [create] calls on one object. Every call of the sequence
    is made, whatever the earlier ones returned or raised; the machine
    after the last call is returned together with each call's outcome. *)
Fixpoint create_all (rs : list request) (m : machine)
    : list (outcome unit) * machine :=
  match rs with
  | [] => ([], m)
  | r :: rs' =>
      let '(o, m1) := create_request r m in
      let '(os, m2) := create_all rs' m1 in
      (o :: os, m2)
  end.

(** A fresh builder: constructor, then [post_init], in a world where
    nothing has happened yet. *)
Definition fresh (device : string) (start_sector : pyval)
    (extended_layout : bool) : machine :=
  mkMachine
    (post_init (PartitionerBase.init device start_sector extended_layout))
    (mkWorld [] 0%nat []).

(** ** Specification vocabulary *)

(** [m'] has the world of [m] extended by the events [evs] and the
    [set_flag] calls [cs]. *)
Record grows (m m' : machine) (evs : list event) (cs : list (Z * string))
    : Prop := Grows {
  grows_trace : trace (world m') = trace (world m) ++ evs;
  grows_calls : set_flag_calls (world m') = set_flag_calls (world m) ++ cs
}.

(** The branch of [create] taken by an object. *)
Inductive routing : Type := ToPrimary | ToExtendedLogical | ToLogical.

Definition route (p : PartitionerMsDos) : routing :=
  if extended_layout p then
    if partition_id p <? 3 then ToPrimary
    else if partition_id p =? 3 then ToExtendedLogical
    else ToLogical
  else ToPrimary.

(** The object after [_create_extended] or [_create_logical]: the counter
    is bumped. *)
Definition bump (p : PartitionerMsDos) : PartitionerMsDos :=
  mkPartitioner (disk_device p) (partition_id p + 1) (start_sector p)
    (extended_layout p) (flag_map p).

(** The object after [_create_primary]: the counter is bumped and, from the
    second slot on, the start sector forgotten. *)
Definition bump_primary (p : PartitionerMsDos) : PartitionerMsDos :=
  mkPartitioner (disk_device p) (partition_id p + 1)
    (if 1 <? partition_id p + 1 then PNone else start_sector p)
    (extended_layout p) (flag_map p).

(** The object after a [create] call. *)
Definition after_create (p : PartitionerMsDos) : PartitionerMsDos :=
  match route p with
  | ToPrimary => bump_primary p
  | ToExtendedLogical => bump (bump p)
  | ToLogical => bump p
  end.

(** The scripts a [create] call writes. *)
Definition created (p : PartitionerMsDos) (mbsize : pyval)
    : list fdisk_script :=
  match route p with
  | ToPrimary =>
      [FdiskScript Primary (partition_id p + 1)
         (start_token (start_sector (bump_primary p))) (size_token mbsize)]
  | ToExtendedLogical =>
      [FdiskScript Extended (partition_id p + 1) "" "";
       FdiskScript Logical (partition_id p + 1 + 1) "" (size_token mbsize)]
  | ToLogical =>
      [FdiskScript Logical (partition_id p + 1) "" (size_token mbsize)]
  end.

(** The object after a sequence of [create] calls and the scripts the
    sequence writes. *)
Fixpoint after_all (p : PartitionerMsDos) (rs : list request)
    : PartitionerMsDos :=
  match rs with
  | [] => p
  | _ :: rs' => after_all (after_create p) rs'
  end.

Fixpoint created_all (p : PartitionerMsDos) (rs : list request)
    : list fdisk_script :=
  match rs with
  | [] => []
  | r :: rs' => created p (rq_mbsize r) ++ created_all (after_create p) rs'
  end.

(** What a creation leaves behind: the scripts, one fdisk invocation for
    each, the [set_flag] calls for the slot just created (the type name,
    then the first [k] of the flags), and no flag-setting command
    addressed to another slot; the scripts and their fdisk invocations
    come first ([pre]), the flag application after them ([post]). *)
Inductive creation (m m' : machine) (slot : Z) (ty : string)
    (flags : list string) (scripts : list fdisk_script) : Prop :=
| Creation (evs : list event) (k : nat)
    (cr_grows :
       grows m m' evs ((slot, ty) :: map (pair slot) (take k flags)))
    (cr_written : written evs = scripts)
    (cr_fdisk : length (fdisk_commands evs) = length scripts)
    (cr_flags :
       Forall (addresses (disk_device (self m)) slot) (flag_commands evs))
    (cr_order :
       exists pre post,
         evs = pre ++ post /\
         written pre = scripts /\ flag_commands pre = [] /\
         written post = [] /\ fdisk_commands post = []).

(** The argument vector [set_flag] runs for a supported flag. *)
Definition flag_argv (device : string) (pid : Z) (f : string) (code : pyval)
    : list pyval :=
  if String.eqb f "f.active" then parted_argv device pid
  else sfdisk_argv device pid code.

(** The flag-setting command [set_flag device pid f] runs, if any. *)
Definition applied (device : string) (pid : Z) (fm : gmap string pyval)
    (f : string) : list (list pyval) :=
  match fm !! f with
  | Some code => if truthy code then [flag_argv device pid f code] else []
  | None => []
  end.

Definition unknown_flag (f : string) : exn :=
  KiwiPartitionerMsDosFlagError ("Unknown partition flag " +:+ f).

(** An exception leaving the flag application is the unknown-flag error
    of one of the names, or the exception of the flag-setting command run
    last. *)
Definition flag_failure (names : list string) (m' : machine) (e : exn)
    : Prop :=
  (exists f, f ∈ names /\ e = unknown_flag f) \/
  (exists argv, is_fdisk_call argv = false /\
                last (trace (world m')) = Some (ERun argv (Some e))).

(** The [set_flag] calls and the flag-setting commands of a sequence of
    [create] calls of which none raises. *)
Fixpoint calls_all (p : PartitionerMsDos) (rs : list request)
    : list (Z * string) :=
  match rs with
  | [] => []
  | r :: rs' =>
      map (pair (partition_id (after_create p)))
        (rq_type_name r :: rq_flags r) ++
      calls_all (after_create p) rs'
  end.

Fixpoint flag_commands_all (p : PartitionerMsDos) (rs : list request)
    : list (list pyval) :=
  match rs with
  | [] => []
  | r :: rs' =>
      flat_map
        (applied (disk_device p) (partition_id (after_create p))
           (flag_map p))
        (rq_type_name r :: rq_flags r) ++
      flag_commands_all (after_create p) rs'
  end.

(** The first of [names] that is not a key of [fm]. *)
Fixpoint first_unknown (fm : gmap string pyval) (names : list string)
    : option string :=
  match names with
  | [] => None
  | f :: names' =>
      match fm !! f with
      | None => Some f
      | Some _ => first_unknown fm names'
      end
  end.

(** The events of one script creation up to and including the fdisk
    invocation: the debug line, the script written to a fresh temporary
    file, the [bash -c] command and, when that fails, the debug line of
    the handler. *)
Definition fdisk_events (m : machine) (msg : string) (s : fdisk_script)
    : list event :=
  let path := Temporary_name (tmp_files (world m)) in
  let argv := fdisk_argv (disk_device (self m)) path in
  let r :=
    Command_outcome (trace (world m) ++ [ELog DEBUG msg; EWrite path s])
      argv in
  [ELog DEBUG msg; EWrite path s; ERun argv r] ++
  match r with
  | None => []
  | Some _ => [ELog DEBUG "potential fdisk errors were ignored"]
  end.

(** The machine once a creation function has updated the object to [p'],
    taken its temporary file, and run fdisk on the script. *)
Definition scripted (m : machine) (p' : PartitionerMsDos) (msg : string)
    (s : fdisk_script) : machine :=
  mkMachine p'
    (mkWorld (trace (world m) ++ fdisk_events m msg s)
       (S (tmp_files (world m))) (set_flag_calls (world m))).

(** The debug lines of the three creation functions. *)
Definition primary_msg (name : string) (slot : Z) (mbsize : pyval) : string :=
  name +:+ ": fdisk: n p " +:+ format (PInt slot) +:+
  " cur_position +" +:+ format mbsize +:+ "M w q".

Definition extended_msg (name : string) (slot : Z) : string :=
  name +:+ ": fdisk: n e " +:+ format (PInt slot) +:+
  " cur_position +all_freeM w q".

Definition logical_msg (name : string) (slot : Z) (mbsize : pyval) : string :=
  name +:+ ": fdisk: n " +:+ format (PInt slot) +:+
  " cur_position +" +:+ format mbsize +:+ "M w q".

(** [Command.run] returns normally on every flag-setting command. *)
Definition flag_commands_succeed : Prop :=
  forall history argv,
    is_fdisk_call argv = false -> Command_outcome history argv = None.

(** ** Vocabulary of the further properties *)

(** Every character of a string is a decimal digit or a minus sign. *)
Fixpoint all_numeric (s : string) : bool :=
  match s with
  | EmptyString => true
  | String c s' => is_numeric c && all_numeric s'
  end.

(** The files the scripts of a trace were written to, in order. *)
Definition script_files (t : list event) : list string :=
  omap (fun e => match e with EWrite path _ => Some path | _ => None end) t.

(** A machine with the layout mode of its object replaced. *)
Definition relayout (b : bool) (m : machine) : machine :=
  mkMachine
    (mkPartitioner (disk_device (self m)) (partition_id (self m))
       (start_sector (self m)) b (flag_map (self m)))
    (world m).

(** Whether [n] further [create] calls on the object reach the primary
    boundary of the extended layout, where one call creates two
    partitions. *)
Definition crosses_boundary (p : PartitionerMsDos) (n : nat) : bool :=
  extended_layout p && (partition_id p <=? 3) &&
  (3 <? partition_id p + Z.of_nat n).

(** The names [post_init] maps to an sfdisk type code, with the code. *)
Definition msdos_type_codes : list (string * string) :=
  [("t.linux", "83"); ("t.swap", "82"); ("t.lvm", "8e"); ("t.raid", "fd");
   ("t.prep", "41"); ("t.extended", "5")].

(** ** The script text determines the template *)

Lemma pretty_N_char_numeric x : is_numeric (pretty_N_char x) = true.
Proof. unfold pretty_N_char. by repeat case_match. Qed.

Lemma pretty_N_go_head x s :
  (0 < x)%N \/ head_numeric s = true ->
  head_numeric (pretty_N_go x s) = true.
Proof.
  revert s. induction (N.lt_wf_0 x) as [x _ IH]; intros s Hs.
  assert (x = 0 \/ 0 < x)%N as [->|Hpos] by lia.
  - rewrite pretty_N_go_0. by destruct Hs as [?|?]; [lia|].
  - rewrite pretty_N_go_step by done. apply IH.
    + by apply N.div_lt.
    + right. simpl. apply pretty_N_char_numeric.
Qed.

Lemma pretty_Z_head (z : Z) : head_numeric (pretty z) = true.
Proof.
  destruct z as [|x|x]; [done|..].
  - unfold pretty, pretty_Z, pretty, pretty_positive, pretty, pretty_N.
    case_decide; [done|]. apply pretty_N_go_head. left. lia.
  - done.
Qed.

Lemma script_text_kind s1 s2 :
  script_text s1 = script_text s2 -> fs_kind s1 = fs_kind s2.
Proof.
  unfold script_text, format.
  pose proof (pretty_Z_head (fs_slot s1)) as H1.
  pose proof (pretty_Z_head (fs_slot s2)) as H2.
  destruct (pretty (fs_slot s1)) as [|c1 t1]; [done|].
  destruct (pretty (fs_slot s2)) as [|c2 t2]; [done|].
  destruct (fs_kind s1), (fs_kind s2); simpl; intros H;
    try done; inversion H; subst; done.
Qed.

(** ** Basic facts about the monad and the world *)

Ltac unfold_m :=
  unfold mbind, M_bind, mret, M_ret, raise, try_except, get_self,
    set_partition_id, set_start_sector, log_debug, log_warning, write_file,
    emit, note_set_flag, Temporary_new_file, Command_run in *.

Lemma bind_unfold {A B} (f : A -> M B) (c : M A) (m : machine) :
  (c ≫= f) m =
  match c m with
  | (Ok a, m') => f a m'
  | (Raise e, m') => (Raise e, m')
  end.
Proof. reflexivity. Qed.

Lemma get_self_run m : get_self m = (Ok (self m), m).
Proof. reflexivity. Qed.

Ltac step_m :=
  repeat (first [rewrite bind_unfold | rewrite get_self_run];
          cbn beta iota).

Lemma grows_refl m : grows m m [] [].
Proof. split; by rewrite app_nil_r. Qed.

Lemma grows_trans m1 m2 m3 e1 e2 c1 c2 :
  grows m1 m2 e1 c1 -> grows m2 m3 e2 c2 ->
  grows m1 m3 (e1 ++ e2) (c1 ++ c2).
Proof.
  intros [Ht1 Hc1] [Ht2 Hc2]. split.
  - by rewrite Ht2, Ht1, app_assoc.
  - by rewrite Hc2, Hc1, app_assoc.
Qed.

Lemma written_app t1 t2 : written (t1 ++ t2) = written t1 ++ written t2.
Proof. apply omap_app. Qed.

Lemma commands_app t1 t2 : commands (t1 ++ t2) = commands t1 ++ commands t2.
Proof. apply omap_app. Qed.

Lemma flag_commands_app t1 t2 :
  flag_commands (t1 ++ t2) = flag_commands t1 ++ flag_commands t2.
Proof. unfold flag_commands. by rewrite commands_app, filter_app. Qed.

Lemma fdisk_commands_app t1 t2 :
  fdisk_commands (t1 ++ t2) = fdisk_commands t1 ++ fdisk_commands t2.
Proof. unfold fdisk_commands. by rewrite commands_app, filter_app. Qed.

Lemma addresses_not_fdisk device slot argv :
  addresses device slot argv -> is_fdisk_call argv = false.
Proof. by intros [->|[code ->]]. Qed.

(** Flag events write no script and run no fdisk; their commands address
    the slot they were issued for. *)
Lemma flag_events_written device slot evs :
  Forall (flag_event device slot) evs -> written evs = [].
Proof.
  induction 1 as [|e evs He _ IH]; [done|].
  destruct e as [[]| |]; simpl in *; done.
Qed.

Lemma flag_events_fdisk device slot evs :
  Forall (flag_event device slot) evs -> fdisk_commands evs = [].
Proof.
  induction 1 as [|e evs He _ IH]; [done|].
  destruct e as [[]| |argv r]; simpl in He; try done.
  unfold fdisk_commands in *. simpl. rewrite filter_cons_False; [done|].
  by rewrite (addresses_not_fdisk _ _ _ He).
Qed.

Lemma flag_events_commands device slot evs :
  Forall (flag_event device slot) evs ->
  Forall (addresses device slot) (flag_commands evs).
Proof.
  induction 1 as [|e evs He _ IH]; [by constructor|].
  destruct e as [[]| |argv r]; simpl in He; try done.
  unfold flag_commands in *. simpl. rewrite filter_cons_True.
  - by constructor.
  - by apply (addresses_not_fdisk device slot).
Qed.

(** ** [set_flag] *)

Lemma set_flag_unknown pid f m :
  flag_map (self m) !! f = None ->
  set_flag pid f m =
    (Raise (KiwiPartitionerMsDosFlagError ("Unknown partition flag " +:+ f)),
     mkMachine (self m)
       (mkWorld (trace (world m)) (tmp_files (world m))
          (set_flag_calls (world m) ++ [(pid, f)]))).
Proof. intros Hf. unfold set_flag. unfold_m. simpl. by rewrite Hf. Qed.

Lemma set_flag_unsupported pid f code m :
  flag_map (self m) !! f = Some code -> truthy code = false ->
  set_flag pid f m =
    (Ok tt,
     mkMachine (self m)
       (mkWorld
          (trace (world m) ++
             [ELog WARNING ("Flag " +:+ f +:+ " ignored on msdos")])
          (tmp_files (world m))
          (set_flag_calls (world m) ++ [(pid, f)]))).
Proof.
  intros Hf Hc. unfold set_flag. unfold_m. simpl. by rewrite Hf, Hc.
Qed.

Lemma set_flag_supported pid f code m :
  flag_map (self m) !! f = Some code -> truthy code = true ->
  let argv := flag_argv (disk_device (self m)) pid f code in
  let r := Command_outcome (trace (world m)) argv in
  set_flag pid f m =
    (match r with None => Ok tt | Some e => Raise e end,
     mkMachine (self m)
       (mkWorld (trace (world m) ++ [ERun argv r]) (tmp_files (world m))
          (set_flag_calls (world m) ++ [(pid, f)]))).
Proof.
  intros Hf Hc. unfold set_flag, flag_argv. unfold_m. simpl.
  rewrite Hf, Hc. destruct (String.eqb f "f.active"); simpl;
    by destruct (Command_outcome _ _).
Qed.

Lemma flag_argv_addresses device pid f code :
  addresses device pid (flag_argv device pid f code).
Proof.
  unfold flag_argv, addresses. destruct (String.eqb f "f.active"); eauto.
Qed.

Lemma set_flag_effect pid f m :
  self (set_flag pid f m).2 = self m /\
  exists evs,
    grows m (set_flag pid f m).2 evs [(pid, f)] /\
    Forall (flag_event (disk_device (self m)) pid) evs.
Proof.
  destruct (flag_map (self m) !! f) as [code|] eqn:Hf.
  - destruct (truthy code) eqn:Hc.
    + rewrite (set_flag_supported _ _ _ _ Hf Hc). simpl. split; [done|].
      eexists. split; [by split|].
      constructor; [|constructor]. simpl. apply flag_argv_addresses.
    + rewrite (set_flag_unsupported _ _ _ _ Hf Hc). simpl. split; [done|].
      eexists. split; [by split|]. by repeat constructor.
  - rewrite (set_flag_unknown _ _ _ Hf). simpl. split; [done|].
    exists []. split; [split; simpl; by rewrite ?app_nil_r|constructor].
Qed.

(** ** [_set_all_flags] *)

Lemma for_each_set_flag_effect flags m :
  let m' :=
    (for_each flags (fun flag_name =>
       p ← get_self; set_flag (partition_id p) flag_name) m).2 in
  self m' = self m /\
  exists evs k,
    grows m m' evs (map (pair (partition_id (self m))) (take k flags)) /\
    Forall (flag_event (disk_device (self m)) (partition_id (self m))) evs.
Proof.
  revert m. induction flags as [|f flags IH]; intros m; simpl.
  - split; [done|]. exists [], 0%nat. split; [apply grows_refl|constructor].
  - step_m.
    destruct (set_flag_effect (partition_id (self m)) f m)
      as (Hs & evs & Hg & Hev).
    destruct (set_flag (partition_id (self m)) f m) as [[[]|e] m1] eqn:E;
      simpl in *.
    + destruct (IH m1) as (Hs' & evs' & k & Hg' & Hev'). simpl in *.
      rewrite Hs in *. split; [done|].
      exists (evs ++ evs'), (S k). split.
      * apply (grows_trans _ _ _ _ _ _ _ Hg Hg').
      * by apply Forall_app.
    + split; [done|]. exists evs, 1%nat. simpl. by rewrite ?take_0.
Qed.

Lemma _set_all_flags_effect ty flags m :
  let m' := (_set_all_flags ty flags m).2 in
  self m' = self m /\
  exists evs k,
    grows m m' evs
      ((partition_id (self m), ty) ::
       map (pair (partition_id (self m))) (take k flags)) /\
    Forall (flag_event (disk_device (self m)) (partition_id (self m))) evs.
Proof.
  unfold _set_all_flags. step_m.
  destruct (set_flag_effect (partition_id (self m)) ty m)
    as (Hs & evs & Hg & Hev).
  destruct (set_flag (partition_id (self m)) ty m) as [[[]|e] m1] eqn:E;
    simpl in *.
  - case_bool_decide as Hfl.
    + destruct (for_each_set_flag_effect flags m1)
        as (Hs' & evs' & k & Hg' & Hev'). simpl in *.
      rewrite Hs in *. split; [done|].
      exists (evs ++ evs'), k. split.
      * apply (grows_trans _ _ _ _ _ _ _ Hg Hg').
      * by apply Forall_app.
    + simpl. split; [done|]. exists evs, 0%nat. by rewrite take_0.
  - split; [done|]. exists evs, 0%nat. by rewrite take_0.
Qed.

(** ** [_call_fdisk] and the creation functions *)

Lemma _call_fdisk_run path m :
  let argv := fdisk_argv (disk_device (self m)) path in
  let r := Command_outcome (trace (world m)) argv in
  _call_fdisk path m =
    (Ok tt,
     mkMachine (self m)
       (mkWorld
          (trace (world m) ++
             ERun argv r ::
             match r with
             | None => []
             | Some _ => [ELog DEBUG "potential fdisk errors were ignored"]
             end)
          (tmp_files (world m)) (set_flag_calls (world m)))).
Proof.
  unfold _call_fdisk. step_m. unfold_m. simpl.
  destruct (Command_outcome _ _); simpl; [by rewrite <- app_assoc|done].
Qed.

Lemma _create_extended_run name m :
  _create_extended name m =
    (Ok tt,
     scripted m (bump (self m))
       (extended_msg name (partition_id (self m) + 1))
       (FdiskScript Extended (partition_id (self m) + 1) "" "")).
Proof.
  unfold _create_extended. step_m. unfold_m. simpl.
  rewrite _call_fdisk_run. simpl.
  unfold scripted, fdisk_events, extended_msg, bump. simpl.
  by rewrite <- !app_assoc.
Qed.

Lemma _create_primary_run name mbsize ty flags m :
  _create_primary name mbsize ty flags m =
    _set_all_flags ty flags
      (scripted m (bump_primary (self m))
         (primary_msg name (partition_id (self m) + 1) mbsize)
         (FdiskScript Primary (partition_id (self m) + 1)
            (start_token (start_sector (bump_primary (self m))))
            (size_token mbsize))).
Proof.
  unfold _create_primary. step_m. unfold_m. simpl.
  destruct (1 <? partition_id (self m) + 1) eqn:E; simpl; step_m;
    rewrite _call_fdisk_run; simpl;
    unfold scripted, fdisk_events, primary_msg, bump_primary; simpl;
    rewrite E, <- !app_assoc; reflexivity.
Qed.

Lemma _create_logical_run name mbsize ty flags m :
  _create_logical name mbsize ty flags m =
    _set_all_flags ty flags
      (scripted m (bump (self m))
         (logical_msg name (partition_id (self m) + 1) mbsize)
         (FdiskScript Logical (partition_id (self m) + 1) ""
            (size_token mbsize))).
Proof.
  unfold _create_logical. step_m. unfold_m. simpl.
  rewrite _call_fdisk_run. simpl.
  unfold scripted, fdisk_events, logical_msg, bump. simpl.
  by rewrite <- !app_assoc.
Qed.

Lemma create_run name mbsize ty flags m :
  create name mbsize ty flags m =
    match route (self m) with
    | ToPrimary => _create_primary name mbsize ty flags m
    | ToExtendedLogical =>
        _create_logical name mbsize ty flags
          (scripted m (bump (self m))
             (extended_msg name (partition_id (self m) + 1))
             (FdiskScript Extended (partition_id (self m) + 1) "" ""))
    | ToLogical => _create_logical name mbsize ty flags m
    end.
Proof.
  unfold create, route. step_m.
  destruct (extended_layout (self m)); [|done].
  destruct (partition_id (self m) <? 3) eqn:E1; [done|].
  destruct (partition_id (self m) =? 3) eqn:E2.
  - step_m. by rewrite _create_extended_run.
  - destruct (3 <? partition_id (self m)) eqn:E3; [done|]. lia.
Qed.

Lemma fdisk_events_written m msg s : written (fdisk_events m msg s) = [s].
Proof. unfold fdisk_events. simpl. by destruct (Command_outcome _ _). Qed.

Lemma fdisk_events_fdisk m msg s :
  length (fdisk_commands (fdisk_events m msg s)) = 1%nat.
Proof. unfold fdisk_events. simpl. by destruct (Command_outcome _ _). Qed.

Lemma fdisk_events_flag m msg s : flag_commands (fdisk_events m msg s) = [].
Proof. unfold fdisk_events. simpl. by destruct (Command_outcome _ _). Qed.

Lemma scripted_grows m p' msg s :
  grows m (scripted m p' msg s) (fdisk_events m msg s) [].
Proof. split; simpl; by rewrite ?app_nil_r. Qed.

Lemma scripted_then_flags m p' msg s ty flags :
  disk_device p' = disk_device (self m) ->
  let m' := (_set_all_flags ty flags (scripted m p' msg s)).2 in
  self m' = p' /\ creation m m' (partition_id p') ty flags [s].
Proof.
  intros Hdev m'.
  destruct (_set_all_flags_effect ty flags (scripted m p' msg s))
    as (Hs & evs & k & Hg & Hev).
  fold m' in Hs, Hg. simpl in *. split; [done|].
  apply (Creation _ _ _ _ _ _ (fdisk_events m msg s ++ evs) k).
  - apply (grows_trans _ _ _ _ _ _ _ (scripted_grows m p' msg s) Hg).
  - by rewrite written_app, fdisk_events_written,
      (flag_events_written _ _ _ Hev).
  - by rewrite fdisk_commands_app, length_app, fdisk_events_fdisk,
      (flag_events_fdisk _ _ _ Hev).
  - rewrite flag_commands_app, fdisk_events_flag. simpl.
    rewrite <- Hdev. by apply flag_events_commands.
  - exists (fdisk_events m msg s), evs.
    rewrite fdisk_events_written, fdisk_events_flag,
      (flag_events_written _ _ _ Hev), (flag_events_fdisk _ _ _ Hev).
    done.
Qed.

(** ** [create] *)

Lemma create_effect name mbsize ty flags m :
  let m' := (create name mbsize ty flags m).2 in
  self m' = after_create (self m) /\
  creation m m' (partition_id (after_create (self m))) ty flags
    (created (self m) mbsize).
Proof.
  intros m'. subst m'. rewrite create_run.
  unfold after_create, created. destruct (route (self m)) eqn:R.
  - rewrite _create_primary_run. by apply scripted_then_flags.
  - rewrite _create_logical_run.
    set (m0 := scripted m _ _ _).
    destruct (scripted_then_flags m0 (bump (self m0))
                (logical_msg name (partition_id (self m0) + 1) mbsize)
                (FdiskScript Logical (partition_id (self m0) + 1) ""
                   (size_token mbsize)) ty flags eq_refl)
      as [Hs [evs k Hg Hw Hf Ha (pre & post & -> & Hpw & Hpf & Hqw & Hqf)]].
    split; [done|].
    pose proof (scripted_grows m (bump (self m))
      (extended_msg name (partition_id (self m) + 1))
      (FdiskScript Extended (partition_id (self m) + 1) "" "")) as Hg0.
    fold m0 in Hg0.
    eapply Creation; [exact (grows_trans _ _ _ _ _ _ _ Hg0 Hg)|..].
    + by rewrite written_app, fdisk_events_written, Hw.
    + by rewrite fdisk_commands_app, length_app, fdisk_events_fdisk, Hf.
    + by rewrite flag_commands_app, fdisk_events_flag.
    + exists (fdisk_events m
                (extended_msg name (partition_id (self m) + 1))
                (FdiskScript Extended (partition_id (self m) + 1) "" "")
              ++ pre), post.
      rewrite written_app, flag_commands_app, fdisk_events_written,
        fdisk_events_flag, Hpw, Hpf, <- app_assoc.
      done.
  - rewrite _create_logical_run. by apply scripted_then_flags.
Qed.

(** ** Outcomes when the flag-setting commands succeed *)

Lemma set_flag_good pid f m :
  flag_commands_succeed ->
  let r := set_flag pid f m in
  r.1 = match flag_map (self m) !! f with
        | None => Raise (unknown_flag f)
        | Some _ => Ok tt
        end /\
  self r.2 = self m /\
  set_flag_calls (world r.2) = set_flag_calls (world m) ++ [(pid, f)] /\
  flag_commands (trace (world r.2)) =
    flag_commands (trace (world m)) ++
    applied (disk_device (self m)) pid (flag_map (self m)) f.
Proof.
  intros Hgood r. subst r. unfold applied.
  destruct (flag_map (self m) !! f) as [code|] eqn:Hf.
  - destruct (truthy code) eqn:Hc.
    + rewrite (set_flag_supported _ _ _ _ Hf Hc). simpl.
      pose proof (addresses_not_fdisk _ _ _
        (flag_argv_addresses (disk_device (self m)) pid f code)) as Hn.
      rewrite (Hgood _ _ Hn). repeat split.
      rewrite flag_commands_app. f_equal.
      unfold flag_commands. simpl. by rewrite filter_cons_True.
    + rewrite (set_flag_unsupported _ _ _ _ Hf Hc). simpl. repeat split.
      by rewrite flag_commands_app.
  - rewrite (set_flag_unknown _ _ _ Hf). simpl. repeat split.
    by rewrite app_nil_r.
Qed.

Lemma for_each_set_flag_good flags m :
  flag_commands_succeed ->
  let r :=
    for_each flags (fun flag_name =>
      p ← get_self; set_flag (partition_id p) flag_name) m in
  self r.2 = self m /\
  match first_unknown (flag_map (self m)) flags with
  | Some f => r.1 = Raise (unknown_flag f)
  | None =>
      r.1 = Ok tt /\
      set_flag_calls (world r.2) =
        set_flag_calls (world m) ++ map (pair (partition_id (self m))) flags /\
      flag_commands (trace (world r.2)) =
        flag_commands (trace (world m)) ++
        flat_map
          (applied (disk_device (self m)) (partition_id (self m))
             (flag_map (self m)))
          flags
  end.
Proof.
  intros Hgood. revert m. induction flags as [|f flags IH]; intros m; simpl.
  - by rewrite !app_nil_r.
  - step_m.
    destruct (set_flag_good (partition_id (self m)) f m Hgood)
      as (Ho & Hs & Hc & Hf).
    destruct (set_flag (partition_id (self m)) f m) as [o m1] eqn:E.
    simpl in *. subst o.
    destruct (flag_map (self m) !! f) as [code|] eqn:Hl; [|done].
    destruct (IH m1) as (Hs' & IH'). simpl in *. rewrite Hs in *.
    split; [done|].
    destruct (first_unknown (flag_map (self m)) flags); [done|].
    destruct IH' as (Ho' & Hc' & Hf'). split; [done|].
    rewrite Hc', Hc, Hf', Hf, <- !app_assoc. done.
Qed.

Lemma _set_all_flags_good ty flags m :
  flag_commands_succeed ->
  let r := _set_all_flags ty flags m in
  self r.2 = self m /\
  match first_unknown (flag_map (self m)) (ty :: flags) with
  | Some f => r.1 = Raise (unknown_flag f)
  | None =>
      r.1 = Ok tt /\
      set_flag_calls (world r.2) =
        set_flag_calls (world m) ++
        map (pair (partition_id (self m))) (ty :: flags) /\
      flag_commands (trace (world r.2)) =
        flag_commands (trace (world m)) ++
        flat_map
          (applied (disk_device (self m)) (partition_id (self m))
             (flag_map (self m)))
          (ty :: flags)
  end.
Proof.
  intros Hgood. unfold _set_all_flags. step_m.
  replace (if bool_decide (flags <> []) then _ else mret tt)
    with (for_each flags (fun flag_name =>
            p ← get_self; set_flag (partition_id p) flag_name)).
  2:{ case_bool_decide as Hfl; [done|]. by destruct flags. }
  exact (for_each_set_flag_good (ty :: flags) m Hgood).
Qed.

Lemma scripted_then_flags_good m p' msg s ty flags :
  flag_commands_succeed ->
  disk_device p' = disk_device (self m) ->
  flag_map p' = flag_map (self m) ->
  let r := _set_all_flags ty flags (scripted m p' msg s) in
  match first_unknown (flag_map (self m)) (ty :: flags) with
  | Some f => r.1 = Raise (unknown_flag f)
  | None =>
      r.1 = Ok tt /\
      set_flag_calls (world r.2) =
        set_flag_calls (world m) ++ map (pair (partition_id p')) (ty :: flags) /\
      flag_commands (trace (world r.2)) =
        flag_commands (trace (world m)) ++
        flat_map
          (applied (disk_device (self m)) (partition_id p')
             (flag_map (self m)))
          (ty :: flags)
  end.
Proof.
  intros Hgood Hdev Hfm r.
  destruct (_set_all_flags_good ty flags (scripted m p' msg s) Hgood)
    as [_ H].
  fold r in H. cbn [scripted self world trace set_flag_calls] in H.
  rewrite Hdev, Hfm in H.
  destruct (first_unknown (flag_map (self m)) (ty :: flags)); [done|].
  destruct H as (Ho & Hc & Hf). repeat split; [done..|].
  by rewrite Hf, flag_commands_app, fdisk_events_flag, app_nil_r.
Qed.

Lemma create_good name mbsize ty flags m :
  flag_commands_succeed ->
  let r := create name mbsize ty flags m in
  let slot := partition_id (after_create (self m)) in
  match first_unknown (flag_map (self m)) (ty :: flags) with
  | Some f => r.1 = Raise (unknown_flag f)
  | None =>
      r.1 = Ok tt /\
      set_flag_calls (world r.2) =
        set_flag_calls (world m) ++ map (pair slot) (ty :: flags) /\
      flag_commands (trace (world r.2)) =
        flag_commands (trace (world m)) ++
        flat_map (applied (disk_device (self m)) slot (flag_map (self m)))
          (ty :: flags)
  end.
Proof.
  intros Hgood r slot. subst r slot. rewrite create_run.
  unfold after_create. destruct (route (self m)) eqn:R.
  - rewrite _create_primary_run. by apply scripted_then_flags_good.
  - rewrite _create_logical_run.
    set (m0 := scripted m _ _ _).
    pose proof (scripted_then_flags_good m0 (bump (self m0))
                (logical_msg name (partition_id (self m0) + 1) mbsize)
                (FdiskScript Logical (partition_id (self m0) + 1) ""
                   (size_token mbsize)) ty flags Hgood eq_refl eq_refl) as H.
    cbn zeta in H.
    change (flag_map (self m0)) with (flag_map (self m)) in H.
    change (disk_device (self m0)) with (disk_device (self m)) in H.
    destruct (first_unknown (flag_map (self m)) (ty :: flags)); [done|].
    destruct H as (Ho & Hc & Hf). repeat split; [done..|].
    rewrite Hf. f_equal. subst m0. simpl.
    by rewrite flag_commands_app, fdisk_events_flag, app_nil_r.
  - rewrite _create_logical_run. by apply scripted_then_flags_good.
Qed.

Lemma _set_all_flags_type_raises ty flags m e :
  (set_flag (partition_id (self m)) ty m).1 = Raise e ->
  (_set_all_flags ty flags m).1 = Raise e.
Proof.
  intros H. unfold _set_all_flags. step_m.
  by destruct (set_flag (partition_id (self m)) ty m) as [[[]|e'] m1].
Qed.

Lemma create_type_raises name mbsize ty flags m e :
  (forall m', flag_map (self m') = flag_map (self m) ->
              disk_device (self m') = disk_device (self m) ->
              (set_flag (partition_id (self m')) ty m').1 = Raise e) ->
  (create name mbsize ty flags m).1 = Raise e.
Proof.
  intros H. rewrite create_run. destruct (route (self m));
    rewrite ?_create_primary_run, ?_create_logical_run;
    apply _set_all_flags_type_raises, H; done.
Qed.

Lemma set_flag_raises pid f m e :
  (set_flag pid f m).1 = Raise e ->
  flag_failure [f] (set_flag pid f m).2 e.
Proof.
  destruct (flag_map (self m) !! f) as [code|] eqn:Hf.
  - destruct (truthy code) eqn:Hc.
    + rewrite (set_flag_supported _ _ _ _ Hf Hc). simpl.
      destruct (Command_outcome _ _) as [e'|] eqn:E; [|done].
      intros [= ->]. right.
      exists (flag_argv (disk_device (self m)) pid f code). split.
      * apply (addresses_not_fdisk (disk_device (self m)) pid),
          flag_argv_addresses.
      * simpl. apply last_snoc.
    + by rewrite (set_flag_unsupported _ _ _ _ Hf Hc).
  - rewrite (set_flag_unknown _ _ _ Hf). simpl. intros [= <-].
    left. exists f. split; [by left|done].
Qed.

Lemma flag_failure_mono names names' m' e :
  names ⊆ names' -> flag_failure names m' e -> flag_failure names' m' e.
Proof.
  intros Hsub [(f & Hf & ->)|H]; [left|by right].
  exists f. split; [by apply Hsub|done].
Qed.

Lemma for_each_set_flag_raises flags m e :
  let r :=
    for_each flags (fun flag_name =>
      p ← get_self; set_flag (partition_id p) flag_name) m in
  r.1 = Raise e -> flag_failure flags r.2 e.
Proof.
  revert m. induction flags as [|f flags IH]; intros m; simpl; [done|].
  step_m.
  pose proof (set_flag_raises (partition_id (self m)) f m) as Hf.
  destruct (set_flag (partition_id (self m)) f m) as [[[]|e'] m1]; simpl in *.
  - intros He. eapply flag_failure_mono; [|by apply IH].
    intros x Hx. by right.
  - intros [= ->]. eapply flag_failure_mono; [|by apply Hf].
    intros x Hx. apply list_elem_of_singleton in Hx as ->. by left.
Qed.

Lemma _set_all_flags_raises ty flags m e :
  (_set_all_flags ty flags m).1 = Raise e ->
  flag_failure (ty :: flags) (_set_all_flags ty flags m).2 e.
Proof.
  unfold _set_all_flags. step_m.
  replace (if bool_decide (flags <> []) then _ else mret tt)
    with (for_each flags (fun flag_name =>
            p ← get_self; set_flag (partition_id p) flag_name)).
  2:{ case_bool_decide as Hfl; [done|]. by destruct flags. }
  exact (for_each_set_flag_raises (ty :: flags) m e).
Qed.

Lemma create_raises name mbsize ty flags m e :
  (create name mbsize ty flags m).1 = Raise e ->
  flag_failure (ty :: flags) (create name mbsize ty flags m).2 e.
Proof.
  rewrite create_run. destruct (route (self m));
    rewrite ?_create_primary_run, ?_create_logical_run;
    apply _set_all_flags_raises.
Qed.

(** ** How far the flag application gets, and what ends it *)

Lemma for_each_set_flag_calls flags m :
  let r :=
    for_each flags (fun flag_name =>
      p ← get_self; set_flag (partition_id p) flag_name) m in
  match r.1 with
  | Ok _ =>
      set_flag_calls (world r.2) =
        set_flag_calls (world m) ++ map (pair (partition_id (self m))) flags
  | Raise _ =>
      exists l1 f l2,
        flags = l1 ++ f :: l2 /\
        set_flag_calls (world r.2) =
          set_flag_calls (world m) ++
          map (pair (partition_id (self m))) (l1 ++ [f])
  end.
Proof.
  revert m. induction flags as [|f flags IH]; intros m; simpl.
  - by rewrite app_nil_r.
  - step_m.
    destruct (set_flag_effect (partition_id (self m)) f m)
      as (Hs & evs & [_ Hc] & _).
    destruct (set_flag (partition_id (self m)) f m) as [[[]|e] m1];
      simpl in *.
    + specialize (IH m1). simpl in IH. rewrite Hs, Hc in IH.
      destruct (for_each flags _ m1) as [[[]|e] m2]; simpl in *.
      * by rewrite IH, <- app_assoc.
      * destruct IH as (l1 & g & l2 & -> & IH).
        exists (f :: l1), g, l2. split; [done|].
        by rewrite IH, <- app_assoc.
    + exists [], f, flags. by split.
Qed.

Lemma _set_all_flags_calls ty flags m :
  let r := _set_all_flags ty flags m in
  match r.1 with
  | Ok _ =>
      set_flag_calls (world r.2) =
        set_flag_calls (world m) ++
        map (pair (partition_id (self m))) (ty :: flags)
  | Raise _ =>
      exists l1 f l2,
        ty :: flags = l1 ++ f :: l2 /\
        set_flag_calls (world r.2) =
          set_flag_calls (world m) ++
          map (pair (partition_id (self m))) (l1 ++ [f])
  end.
Proof.
  unfold _set_all_flags. step_m.
  replace (if bool_decide (flags <> []) then _ else mret tt)
    with (for_each flags (fun flag_name =>
            p ← get_self; set_flag (partition_id p) flag_name)).
  2:{ case_bool_decide as Hfl; [done|]. by destruct flags. }
  exact (for_each_set_flag_calls (ty :: flags) m).
Qed.

Lemma create_calls name mbsize ty flags m :
  let r := create name mbsize ty flags m in
  let slot := partition_id (after_create (self m)) in
  match r.1 with
  | Ok _ =>
      set_flag_calls (world r.2) =
        set_flag_calls (world m) ++ map (pair slot) (ty :: flags)
  | Raise _ =>
      exists l1 f l2,
        ty :: flags = l1 ++ f :: l2 /\
        set_flag_calls (world r.2) =
          set_flag_calls (world m) ++ map (pair slot) (l1 ++ [f])
  end.
Proof.
  cbn zeta. rewrite create_run. unfold after_create.
  destruct (route (self m));
    rewrite ?_create_primary_run, ?_create_logical_run;
    match goal with
    | |- context [_set_all_flags ty flags ?m1] =>
        exact (_set_all_flags_calls ty flags m1)
    end.
Qed.

(** A flag-setting command that fails ends the flag application with
    its exception: no failure among the events of the application is
    passed over. *)
Lemma set_flag_failure_raises pid f m :
  let r := set_flag pid f m in
  exists evs,
    trace (world r.2) = trace (world m) ++ evs /\
    forall argv e, ERun argv (Some e) ∈ evs -> r.1 = Raise e.
Proof.
  intros r. subst r. destruct (flag_map (self m) !! f) as [code|] eqn:Hf.
  - destruct (truthy code) eqn:Hc.
    + rewrite (set_flag_supported _ _ _ _ Hf Hc). simpl.
      eexists. split; [reflexivity|]. intros argv e Hin.
      apply list_elem_of_singleton in Hin. by inversion Hin.
    + rewrite (set_flag_unsupported _ _ _ _ Hf Hc). simpl.
      eexists. split; [reflexivity|]. intros argv e Hin.
      apply list_elem_of_singleton in Hin. discriminate Hin.
  - rewrite (set_flag_unknown _ _ _ Hf). simpl.
    exists []. split; [by rewrite app_nil_r|].
    intros argv e Hin. by apply elem_of_nil in Hin.
Qed.

Lemma for_each_set_flag_failure_raises flags m :
  let r :=
    for_each flags (fun flag_name =>
      p ← get_self; set_flag (partition_id p) flag_name) m in
  exists evs,
    trace (world r.2) = trace (world m) ++ evs /\
    forall argv e, ERun argv (Some e) ∈ evs -> r.1 = Raise e.
Proof.
  revert m. induction flags as [|f flags IH]; intros m; simpl.
  - exists []. split; [by rewrite app_nil_r|].
    intros argv e Hin. by apply elem_of_nil in Hin.
  - step_m.
    destruct (set_flag_failure_raises (partition_id (self m)) f m)
      as (evs1 & Ht1 & H1).
    destruct (set_flag (partition_id (self m)) f m) as [[[]|e1] m1];
      simpl in *.
    + destruct (IH m1) as (evs2 & Ht2 & H2). cbn zeta in Ht2, H2.
      exists (evs1 ++ evs2). split; [by rewrite Ht2, Ht1, app_assoc|].
      intros argv e Hin. apply elem_of_app in Hin as [Hin|Hin].
      * by specialize (H1 argv e Hin).
      * by apply (H2 argv e).
    + exists evs1. split; [done|]. intros argv e Hin. by apply (H1 argv e).
Qed.

Lemma _set_all_flags_failure_raises ty flags m :
  let r := _set_all_flags ty flags m in
  exists evs,
    trace (world r.2) = trace (world m) ++ evs /\
    forall argv e, ERun argv (Some e) ∈ evs -> r.1 = Raise e.
Proof.
  unfold _set_all_flags. step_m.
  replace (if bool_decide (flags <> []) then _ else mret tt)
    with (for_each flags (fun flag_name =>
            p ← get_self; set_flag (partition_id p) flag_name)).
  2:{ case_bool_decide as Hfl; [done|]. by destruct flags. }
  exact (for_each_set_flag_failure_raises (ty :: flags) m).
Qed.

Lemma fdisk_events_runs_fdisk m msg s argv r :
  ERun argv r ∈ fdisk_events m msg s -> is_fdisk_call argv = true.
Proof.
  unfold fdisk_events. cbn zeta. intros Hin.
  apply elem_of_app in Hin as [Hin|Hin].
  - repeat (apply elem_of_cons in Hin as [Hin|Hin];
            [by inversion Hin|]).
    by apply elem_of_nil in Hin.
  - destruct (Command_outcome _ _).
    + apply list_elem_of_singleton in Hin. discriminate Hin.
    + by apply elem_of_nil in Hin.
Qed.

Lemma scripted_then_flags_failure_raises m p' msg s ty flags :
  let r := _set_all_flags ty flags (scripted m p' msg s) in
  exists evs,
    trace (world r.2) = trace (world m) ++ evs /\
    forall argv e,
      is_fdisk_call argv = false -> ERun argv (Some e) ∈ evs ->
      r.1 = Raise e.
Proof.
  intros r.
  destruct (_set_all_flags_failure_raises ty flags (scripted m p' msg s))
    as (evs & Ht & H).
  fold r in Ht, H. simpl in Ht.
  exists (fdisk_events m msg s ++ evs).
  split; [by rewrite Ht, app_assoc|].
  intros argv e Hflag Hin. apply elem_of_app in Hin as [Hin|Hin].
  - apply fdisk_events_runs_fdisk in Hin. congruence.
  - by apply (H argv e).
Qed.

Lemma create_failure_raises name mbsize ty flags m :
  let r := create name mbsize ty flags m in
  exists evs,
    trace (world r.2) = trace (world m) ++ evs /\
    forall argv e,
      is_fdisk_call argv = false -> ERun argv (Some e) ∈ evs ->
      r.1 = Raise e.
Proof.
  cbn zeta. rewrite create_run. destruct (route (self m)).
  - rewrite _create_primary_run. apply scripted_then_flags_failure_raises.
  - rewrite _create_logical_run. set (m0 := scripted m _ _ _).
    destruct (scripted_then_flags_failure_raises m0 (bump (self m0))
                (logical_msg name (partition_id (self m0) + 1) mbsize)
                (FdiskScript Logical (partition_id (self m0) + 1) ""
                   (size_token mbsize)) ty flags) as (evs & Ht & H).
    exists (fdisk_events m
              (extended_msg name (partition_id (self m) + 1))
              (FdiskScript Extended (partition_id (self m) + 1) "" "")
            ++ evs).
    split;
      [rewrite Ht; subst m0; cbn [scripted world trace];
       by rewrite <- app_assoc|].
    intros argv e Hflag Hin. apply elem_of_app in Hin as [Hin|Hin].
    + apply fdisk_events_runs_fdisk in Hin. congruence.
    + by apply (H argv e).
  - rewrite _create_logical_run. apply scripted_then_flags_failure_raises.
Qed.

(** When every parted invocation fails with [e] and every sfdisk
    invocation succeeds, applying known names of which one is [f.active]
    ends with [e], wherever in the list [f.active] stands. *)
Lemma for_each_set_flag_boot_fails e names m code :
  (forall history device pid,
     Command_outcome history (parted_argv device pid) = Some e) ->
  (forall history device pid c,
     Command_outcome history (sfdisk_argv device pid c) = None) ->
  first_unknown (flag_map (self m)) names = None ->
  flag_map (self m) !! "f.active" = Some code -> truthy code = true ->
  "f.active" ∈ names ->
  (for_each names (fun flag_name =>
     p ← get_self; set_flag (partition_id p) flag_name) m).1 = Raise e.
Proof.
  intros Hparted Hsfdisk. revert m.
  induction names as [|g names IH]; intros m Hknown Hboot Hc Hin.
  - by apply elem_of_nil in Hin.
  - simpl in Hknown. simpl. step_m.
    destruct (flag_map (self m) !! g) as [c|] eqn:Hg; [|done].
    destruct (String.eqb_spec g "f.active") as [->|Hne].
    + rewrite (set_flag_supported _ _ _ _ Hboot Hc). simpl.
      unfold flag_argv. simpl. by rewrite Hparted.
    + apply elem_of_cons in Hin as [Hin|Hin]; [congruence|].
      pose proof (set_flag_effect (partition_id (self m)) g m) as [Hs _].
      destruct (truthy c) eqn:Htc.
      * rewrite (set_flag_supported _ _ _ _ Hg Htc) in *. simpl in *.
        unfold flag_argv in *.
        destruct (String.eqb_spec g "f.active"); [done|].
        rewrite Hsfdisk in *. simpl in *. by apply IH.
      * rewrite (set_flag_unsupported _ _ _ _ Hg Htc) in *. simpl in *.
        by apply IH.
Qed.

Lemma create_boot_fails e name mbsize ty flags m code :
  (forall history device pid,
     Command_outcome history (parted_argv device pid) = Some e) ->
  (forall history device pid c,
     Command_outcome history (sfdisk_argv device pid c) = None) ->
  first_unknown (flag_map (self m)) (ty :: flags) = None ->
  flag_map (self m) !! "f.active" = Some code -> truthy code = true ->
  "f.active" ∈ ty :: flags ->
  (create name mbsize ty flags m).1 = Raise e.
Proof.
  intros Hparted Hsfdisk Hknown Hboot Hc Hin.
  assert (forall m1, flag_map (self m1) = flag_map (self m) ->
            (_set_all_flags ty flags m1).1 = Raise e) as Hflags.
  { intros m1 Hfm.
    pose proof (for_each_set_flag_boot_fails e (ty :: flags) m1 code
                  Hparted Hsfdisk) as H.
    rewrite Hfm in H. specialize (H Hknown Hboot Hc Hin).
    unfold _set_all_flags. step_m.
    replace (if bool_decide (flags <> []) then _ else mret tt)
      with (for_each flags (fun flag_name =>
              p ← get_self; set_flag (partition_id p) flag_name)).
    2:{ case_bool_decide as Hfl; [done|]. by destruct flags. }
    exact H. }
  rewrite create_run. destruct (route (self m));
    rewrite ?_create_primary_run, ?_create_logical_run;
    by apply Hflags.
Qed.

(** When every sfdisk invocation fails with [e] and every parted
    invocation succeeds, applying known names of which one has a type
    code ends with [e], wherever in the list that name stands. *)
Lemma for_each_set_flag_type_fails e names m g code :
  (forall history device pid c,
     Command_outcome history (sfdisk_argv device pid c) = Some e) ->
  (forall history device pid,
     Command_outcome history (parted_argv device pid) = None) ->
  first_unknown (flag_map (self m)) names = None ->
  g <> "f.active" ->
  flag_map (self m) !! g = Some code -> truthy code = true ->
  g ∈ names ->
  (for_each names (fun flag_name =>
     p ← get_self; set_flag (partition_id p) flag_name) m).1 = Raise e.
Proof.
  intros Hsfdisk Hparted. revert m.
  induction names as [|g' names IH]; intros m Hknown Hne Hg Hc Hin.
  - by apply elem_of_nil in Hin.
  - simpl in Hknown. simpl. step_m.
    destruct (flag_map (self m) !! g') as [c|] eqn:Hg'; [|done].
    pose proof (set_flag_effect (partition_id (self m)) g' m) as [Hs _].
    destruct (truthy c) eqn:Htc.
    + rewrite (set_flag_supported _ _ _ _ Hg' Htc) in *. simpl in *.
      unfold flag_argv in *.
      destruct (String.eqb_spec g' "f.active") as [->|Hne'].
      * rewrite Hparted in *. simpl in *.
        apply elem_of_cons in Hin as [Hin|Hin]; [congruence|].
        by apply IH.
      * by rewrite Hsfdisk.
    + rewrite (set_flag_unsupported _ _ _ _ Hg' Htc) in *. simpl in *.
      apply elem_of_cons in Hin as [Hin|Hin]; [|by apply IH].
      subst g'. congruence.
Qed.

Lemma create_type_code_fails e name mbsize ty flags m g code :
  (forall history device pid c,
     Command_outcome history (sfdisk_argv device pid c) = Some e) ->
  (forall history device pid,
     Command_outcome history (parted_argv device pid) = None) ->
  first_unknown (flag_map (self m)) (ty :: flags) = None ->
  g <> "f.active" ->
  flag_map (self m) !! g = Some code -> truthy code = true ->
  g ∈ ty :: flags ->
  (create name mbsize ty flags m).1 = Raise e.
Proof.
  intros Hsfdisk Hparted Hknown Hne Hg Hc Hin.
  assert (forall m1, flag_map (self m1) = flag_map (self m) ->
            (_set_all_flags ty flags m1).1 = Raise e) as Hflags.
  { intros m1 Hfm.
    pose proof (for_each_set_flag_type_fails e (ty :: flags) m1 g code
                  Hsfdisk Hparted) as H.
    rewrite Hfm in H. specialize (H Hknown Hne Hg Hc Hin).
    unfold _set_all_flags. step_m.
    replace (if bool_decide (flags <> []) then _ else mret tt)
      with (for_each flags (fun flag_name =>
              p ← get_self; set_flag (partition_id p) flag_name)).
    2:{ case_bool_decide as Hfl; [done|]. by destruct flags. }
    exact H. }
  rewrite create_run. destruct (route (self m));
    rewrite ?_create_primary_run, ?_create_logical_run;
    by apply Hflags.
Qed.

(** ** Flag application: the error paths *)

(** C4: for every partition id and every flag name that is not a key of
    the flag map, [set_flag] raises [KiwiPartitionerMsDosFlagError] with
    the message 'Unknown partition flag <name>', and the trace of the
    world is left as it was: nothing was logged, written or run. The
    object is unchanged too. *)
Theorem set_flag_unknown_flag_raises_without_call :
  forall (pid : Z) (flag_name : string) (m : machine),
    flag_map (self m) !! flag_name = None ->
    (set_flag pid flag_name m).1 =
      Raise (KiwiPartitionerMsDosFlagError
               ("Unknown partition flag " +:+ flag_name)) /\
    trace (world (set_flag pid flag_name m).2) = trace (world m) /\
    commands (trace (world (set_flag pid flag_name m).2)) =
      commands (trace (world m)) /\
    self (set_flag pid flag_name m).2 = self m.
Proof.
  intros pid f m Hf. by rewrite (set_flag_unknown _ _ _ Hf).
Qed.

Lemma msdos_flag_map_unsupported f :
  msdos_flag_map !! f = Some PNone <-> f = "t.efi" \/ f = "t.csm".
Proof.
  split.
  - unfold msdos_flag_map. rewrite !lookup_insert_Some, lookup_empty.
    intuition (try congruence); auto.
  - intros [->| ->]; reflexivity.
Qed.

(** C8: the flags of the map built by [post_init] whose entry is [None]
    are exactly [t.efi] and [t.csm]; for a flag whose entry is [None],
    [set_flag] returns normally, runs no command, and adds one event to
    the trace, the warning 'Flag <name> ignored on msdos'. *)
Theorem set_flag_unsupported_flag_only_warns :
  (forall (p : PartitionerMsDos) (flag_name : string),
     flag_map (post_init p) !! flag_name = Some PNone <->
     flag_name = "t.efi" \/ flag_name = "t.csm") /\
  (forall (pid : Z) (flag_name : string) (m : machine),
     flag_map (self m) !! flag_name = Some PNone ->
     (set_flag pid flag_name m).1 = Ok tt /\
     trace (world (set_flag pid flag_name m).2) =
       trace (world m) ++
       [ELog WARNING ("Flag " +:+ flag_name +:+ " ignored on msdos")] /\
     commands (trace (world (set_flag pid flag_name m).2)) =
       commands (trace (world m)) /\
     self (set_flag pid flag_name m).2 = self m).
Proof.
  split.
  - intros p f. apply msdos_flag_map_unsupported.
  - intros pid f m Hf.
    rewrite (set_flag_unsupported _ _ _ _ Hf eq_refl). simpl.
    repeat split. by rewrite commands_app, app_nil_r.
Qed.

(** C3: whatever [Command.run] raises on the scripted fdisk invocation,
    [_call_fdisk] returns normally and the handler logs 'potential fdisk
    errors were ignored' at debug level; so [create] returns normally
    whenever the flag names are known and the flag-setting commands
    succeed, however the fdisk invocations end, and an exception that
    does leave [create] is never that of an fdisk invocation: it is the
    unknown-flag error or the exception of the flag-setting command run
    last. An exception of the parted boot-flag command or of the sfdisk
    type-code command is the outcome of [set_flag], and of the [create]
    call that applies the type. No failure of a flag-setting command is
    passed over by [create]: whenever one of the parted or sfdisk
    commands run during a [create] call fails, for the type name or for
    any secondary flag, its exception is the outcome of that call; in
    particular, when parted fails and sfdisk succeeds, a [create] call
    with [f.active] anywhere among its known names raises parted's
    exception, and when sfdisk fails and parted succeeds, a [create] call
    with a name that has a type code anywhere among its known names
    raises sfdisk's exception. *)
Theorem fdisk_failure_swallowed_flag_failure_propagates :
  (forall (path : string) (m : machine), (_call_fdisk path m).1 = Ok tt) /\
  (forall (path : string) (m : machine) (e : exn),
     Command_outcome (trace (world m))
       (fdisk_argv (disk_device (self m)) path) = Some e ->
     trace (world (_call_fdisk path m).2) =
       trace (world m) ++
       [ERun (fdisk_argv (disk_device (self m)) path) (Some e);
        ELog DEBUG "potential fdisk errors were ignored"]) /\
  (flag_commands_succeed ->
   forall name mbsize ty flags (m : machine),
     first_unknown (flag_map (self m)) (ty :: flags) = None ->
     (create name mbsize ty flags m).1 = Ok tt) /\
  (forall name mbsize ty flags (m : machine) (e : exn),
     (create name mbsize ty flags m).1 = Raise e ->
     flag_failure (ty :: flags) (create name mbsize ty flags m).2 e) /\
  (forall (pid : Z) (code : pyval) (m : machine) (e : exn),
     flag_map (self m) !! "f.active" = Some code -> truthy code = true ->
     Command_outcome (trace (world m))
       (parted_argv (disk_device (self m)) pid) = Some e ->
     (set_flag pid "f.active" m).1 = Raise e) /\
  (forall (pid : Z) (flag_name : string) (code : pyval) (m : machine)
          (e : exn),
     flag_name <> "f.active" ->
     flag_map (self m) !! flag_name = Some code -> truthy code = true ->
     Command_outcome (trace (world m))
       (sfdisk_argv (disk_device (self m)) pid code) = Some e ->
     (set_flag pid flag_name m).1 = Raise e) /\
  (forall (e : exn),
     (forall history argv,
        is_fdisk_call argv = false -> Command_outcome history argv = Some e) ->
     forall name mbsize ty flags (code : pyval) (m : machine),
       flag_map (self m) !! ty = Some code -> truthy code = true ->
       (create name mbsize ty flags m).1 = Raise e) /\
  (forall name mbsize ty flags (m : machine),
     exists evs,
       trace (world (create name mbsize ty flags m).2) =
         trace (world m) ++ evs /\
       forall argv (e : exn),
         is_fdisk_call argv = false -> ERun argv (Some e) ∈ evs ->
         (create name mbsize ty flags m).1 = Raise e) /\
  (forall (e : exn),
     (forall history device pid,
        Command_outcome history (parted_argv device pid) = Some e) ->
     (forall history device pid c,
        Command_outcome history (sfdisk_argv device pid c) = None) ->
     forall name mbsize ty flags (code : pyval) (m : machine),
       first_unknown (flag_map (self m)) (ty :: flags) = None ->
       flag_map (self m) !! "f.active" = Some code -> truthy code = true ->
       "f.active" ∈ ty :: flags ->
       (create name mbsize ty flags m).1 = Raise e) /\
  (forall (e : exn),
     (forall history device pid c,
        Command_outcome history (sfdisk_argv device pid c) = Some e) ->
     (forall history device pid,
        Command_outcome history (parted_argv device pid) = None) ->
     forall name mbsize ty flags (g : string) (code : pyval) (m : machine),
       first_unknown (flag_map (self m)) (ty :: flags) = None ->
       g <> "f.active" ->
       flag_map (self m) !! g = Some code -> truthy code = true ->
       g ∈ ty :: flags ->
       (create name mbsize ty flags m).1 = Raise e).
Proof.
  split;
    [|split; [|split; [|split; [|split; [|split; [|split; [|split;
        [|split]]]]]]]].
  10:{ intros e Hsfdisk Hparted name mbsize ty flags g code m
              Hknown Hne Hg Hc Hin.
       by apply (create_type_code_fails e name mbsize ty flags m g code). }
  - intros path m. by rewrite _call_fdisk_run.
  - intros path m e He. rewrite _call_fdisk_run. simpl. by rewrite He.
  - intros Hgood name mbsize ty flags m Hknown.
    pose proof (create_good name mbsize ty flags m Hgood) as H.
    cbn zeta in H. rewrite Hknown in H. apply H.
  - intros name mbsize ty flags m e. apply create_raises.
  - intros pid code m e Hf Hc He.
    rewrite (set_flag_supported _ _ _ _ Hf Hc). simpl.
    unfold flag_argv. simpl. by rewrite He.
  - intros pid f code m e Hne Hf Hc He.
    rewrite (set_flag_supported _ _ _ _ Hf Hc). simpl.
    unfold flag_argv. destruct (String.eqb_spec f "f.active"); [done|].
    by rewrite He.
  - intros e Hbad name mbsize ty flags code m Hf Hc.
    apply create_type_raises. intros m' Hfm Hdev.
    rewrite <- Hfm in Hf.
    rewrite (set_flag_supported _ _ _ _ Hf Hc). simpl.
    rewrite Hbad; [done|].
    apply (addresses_not_fdisk (disk_device (self m'))
             (partition_id (self m'))), flag_argv_addresses.
  - intros name mbsize ty flags m.
    exact (create_failure_raises name mbsize ty flags m).
  - intros e Hparted Hsfdisk name mbsize ty flags code m Hknown Hboot Hc Hin.
    by apply (create_boot_fails e name mbsize ty flags m code).
Qed.

(** ** The size token *)

Lemma size_token_empty mbsize :
  size_token mbsize = "" <-> mbsize = PStr "all_free".
Proof.
  unfold size_token. destruct mbsize as [z|s|b|]; simpl;
    try (split; discriminate).
  destruct (String.eqb_spec s "all_free") as [->|Hne]; simpl.
  - done.
  - split; [discriminate|congruence].
Qed.

Lemma _create_primary_written name mbsize ty flags m :
  written (trace (world (_create_primary name mbsize ty flags m).2)) =
  written (trace (world m)) ++
  [FdiskScript Primary (partition_id (self m) + 1)
     (start_token (start_sector (bump_primary (self m))))
     (size_token mbsize)].
Proof.
  rewrite _create_primary_run.
  edestruct scripted_then_flags as [_ [evs k [Ht _] Hw _ _ _]]; [|rewrite Ht].
  - reflexivity.
  - by rewrite written_app, Hw.
Qed.

Lemma _create_logical_written name mbsize ty flags m :
  written (trace (world (_create_logical name mbsize ty flags m).2)) =
  written (trace (world m)) ++
  [FdiskScript Logical (partition_id (self m) + 1) "" (size_token mbsize)].
Proof.
  rewrite _create_logical_run.
  edestruct scripted_then_flags as [_ [evs k [Ht _] Hw _ _ _]]; [|rewrite Ht].
  - reflexivity.
  - by rewrite written_app, Hw.
Qed.

Lemma _create_extended_written name m :
  written (trace (world (_create_extended name m).2)) =
  written (trace (world m)) ++
  [FdiskScript Extended (partition_id (self m) + 1) "" ""].
Proof.
  rewrite _create_extended_run. simpl.
  by rewrite written_app, fdisk_events_written.
Qed.

(** C7: the script written by [_create_primary] and by [_create_logical]
    has an empty size token exactly when [mbsize] is the string
    'all_free'; the script written by [_create_extended] always has an
    empty size token; and for a positive number of megabytes N the token
    of a primary or logical partition is '+' followed by the decimal
    digits of N and 'M'. *)
Theorem size_token_empty_iff_all_free_or_extended :
  (forall name mbsize ty flags (m : machine),
     exists s,
       written (trace (world (_create_primary name mbsize ty flags m).2)) =
         written (trace (world m)) ++ [s] /\
       fs_kind s = Primary /\
       (fs_size s = "" <-> mbsize = PStr "all_free")) /\
  (forall name mbsize ty flags (m : machine),
     exists s,
       written (trace (world (_create_logical name mbsize ty flags m).2)) =
         written (trace (world m)) ++ [s] /\
       fs_kind s = Logical /\
       (fs_size s = "" <-> mbsize = PStr "all_free")) /\
  (forall name (m : machine),
     exists s,
       written (trace (world (_create_extended name m).2)) =
         written (trace (world m)) ++ [s] /\
       fs_kind s = Extended /\ fs_size s = "") /\
  (forall (N : positive) name ty flags (m : machine),
     exists s s',
       written
         (trace (world (_create_primary name (PInt (Z.pos N)) ty flags m).2)) =
         written (trace (world m)) ++ [s] /\
       written
         (trace (world (_create_logical name (PInt (Z.pos N)) ty flags m).2)) =
         written (trace (world m)) ++ [s'] /\
       fs_size s = "+" +:+ pretty (Z.pos N) +:+ "M" /\
       fs_size s' = "+" +:+ pretty (Z.pos N) +:+ "M").
Proof.
  repeat split.
  - intros name mbsize ty flags m. eexists. split.
    + apply _create_primary_written.
    + split; [done|]. apply size_token_empty.
  - intros name mbsize ty flags m. eexists. split.
    + apply _create_logical_written.
    + split; [done|]. apply size_token_empty.
  - intros name m. eexists. split; [apply _create_extended_written|done].
  - intros N name ty flags m. do 2 eexists. split.
    + apply _create_primary_written.
    + split; [apply _create_logical_written|done].
Qed.

(** ** Sequences of [create] calls *)

Lemma create_all_cons r rs m :
  (create_all (r :: rs) m).2 = (create_all rs (create_request r m).2).2.
Proof.
  simpl. destruct (create_request r m) as [o m1]. simpl.
  by destruct (create_all rs m1).
Qed.

Lemma create_all_length rs m : length (create_all rs m).1 = length rs.
Proof.
  revert m. induction rs as [|r rs IH]; intros m; simpl; [done|].
  destruct (create_request r m) as [o m1].
  specialize (IH m1). destruct (create_all rs m1). simpl in *. by rewrite IH.
Qed.

Lemma create_request_self r m :
  self (create_request r m).2 = after_create (self m).
Proof.
  exact (proj1 (create_effect (rq_name r) (rq_mbsize r) (rq_type_name r)
                  (rq_flags r) m)).
Qed.

Lemma create_request_written r m :
  written (trace (world (create_request r m).2)) =
  written (trace (world m)) ++ created (self m) (rq_mbsize r).
Proof.
  destruct (create_effect (rq_name r) (rq_mbsize r) (rq_type_name r)
              (rq_flags r) m) as [_ [evs k [Ht _] Hw _ _ _]].
  unfold create_request. by rewrite Ht, written_app, Hw.
Qed.

Lemma create_all_self rs m :
  self (create_all rs m).2 = after_all (self m) rs.
Proof.
  revert m. induction rs as [|r rs IH]; intros m; [done|].
  by rewrite create_all_cons, IH, create_request_self.
Qed.

Lemma create_all_written rs m :
  written (trace (world (create_all rs m).2)) =
  written (trace (world m)) ++ created_all (self m) rs.
Proof.
  revert m. induction rs as [|r rs IH]; intros m.
  - simpl. by rewrite app_nil_r.
  - rewrite create_all_cons, IH, create_request_written,
      create_request_self. simpl. by rewrite app_assoc.
Qed.

(** ** The slot state machine *)

Lemma route_simple p : extended_layout p = false -> route p = ToPrimary.
Proof. unfold route. by intros ->. Qed.

Lemma route_primary p :
  extended_layout p = true -> partition_id p < 3 -> route p = ToPrimary.
Proof.
  unfold route. intros -> H. by destruct (Z.ltb_spec (partition_id p) 3); [|lia].
Qed.

Lemma route_boundary p :
  extended_layout p = true -> partition_id p = 3 ->
  route p = ToExtendedLogical.
Proof. unfold route. by intros -> ->. Qed.

Lemma route_logical p :
  extended_layout p = true -> 3 < partition_id p -> route p = ToLogical.
Proof.
  unfold route. intros -> H.
  destruct (Z.ltb_spec (partition_id p) 3); [lia|].
  by destruct (Z.eqb_spec (partition_id p) 3); [lia|].
Qed.

Lemma after_create_layout p :
  extended_layout (after_create p) = extended_layout p.
Proof. unfold after_create. by destruct (route p). Qed.

Lemma simple_mode_run rs p :
  extended_layout p = false ->
  partition_id (after_all p rs) = partition_id p + Z.of_nat (length rs) /\
  fmap kind_slot (created_all p rs) =
    fmap (pair Primary) (seqZ (partition_id p + 1) (Z.of_nat (length rs))).
Proof.
  revert p. induction rs as [|r rs IH]; intros p Hs.
  - simpl. split; [lia|done].
  - cbn [after_all created_all length].
    destruct (IH (after_create p)) as [Hid Hk];
      [by rewrite after_create_layout|].
    unfold after_create, created in *. rewrite (route_simple p Hs) in *.
    simpl in Hid. split; [lia|].
    rewrite (seqZ_cons (partition_id p + 1)) by lia.
    rewrite fmap_app, fmap_cons, Hk. simpl. do 3 f_equal; lia.
Qed.

Lemma logical_phase_run rs p :
  extended_layout p = true -> 3 < partition_id p ->
  partition_id (after_all p rs) = partition_id p + Z.of_nat (length rs) /\
  fmap kind_slot (created_all p rs) =
    fmap (pair Logical) (seqZ (partition_id p + 1) (Z.of_nat (length rs))).
Proof.
  revert p. induction rs as [|r rs IH]; intros p He Hid.
  - simpl. split; [lia|done].
  - cbn [after_all created_all length].
    pose proof (route_logical p He Hid) as R.
    destruct (IH (after_create p)) as [Hid' Hk].
    + by rewrite after_create_layout.
    + unfold after_create. rewrite R. simpl. lia.
    + unfold after_create, created in *. rewrite R in *.
      simpl in Hid'. split; [lia|].
      rewrite (seqZ_cons (partition_id p + 1)) by lia.
      rewrite fmap_app, fmap_cons, Hk. simpl. do 3 f_equal; lia.
Qed.

(** The first four requests of a builder in extended layout. *)
Lemma extended_mode_first_four device start fm r1 r2 r3 r4 :
  let p := mkPartitioner device 0 start true fm in
  created_all p [r1; r2; r3; r4] =
    [FdiskScript Primary 1 (start_token start) (size_token (rq_mbsize r1));
     FdiskScript Primary 2 "" (size_token (rq_mbsize r2));
     FdiskScript Primary 3 "" (size_token (rq_mbsize r3));
     FdiskScript Extended 4 "" "";
     FdiskScript Logical 5 "" (size_token (rq_mbsize r4))] /\
  after_all p [r1; r2; r3; r4] = mkPartitioner device 5 PNone true fm.
Proof. done. Qed.

Lemma created_all_app p rs1 rs2 :
  created_all p (rs1 ++ rs2) =
  created_all p rs1 ++ created_all (after_all p rs1) rs2.
Proof.
  revert p. induction rs1 as [|r rs1 IH]; intros p; [done|].
  simpl. by rewrite IH, app_assoc.
Qed.

Lemma after_all_app p rs1 rs2 :
  after_all p (rs1 ++ rs2) = after_all (after_all p rs1) rs2.
Proof. revert p. induction rs1 as [|r rs1 IH]; intros p; [done|]. apply IH. Qed.

(** C6: a builder in simple layout, fresh from its constructor, after any
    sequence of n [create] calls (whatever each returned or raised) has
    [partition_id] n; the calls wrote n scripts, all of the primary
    template, for the slots 1 to n in order. One call on any simple-layout
    object adds exactly 1 to the counter. *)
Theorem simple_mode_all_primary_counter_counts_calls :
  (forall device start (rs : list request),
     let r := create_all rs (fresh device start false) in
     length r.1 = length rs /\
     partition_id (self r.2) = Z.of_nat (length rs) /\
     Forall (fun s => fs_kind s = Primary) (written (trace (world r.2))) /\
     fmap kind_slot (written (trace (world r.2))) =
       fmap (pair Primary) (seqZ 1 (Z.of_nat (length rs)))) /\
  (forall device id start fm (w : World) (r : request),
     partition_id
       (self (create_request r
                (mkMachine (mkPartitioner device id start false fm) w)).2)
     = id + 1).
Proof.
  split.
  - intros device start rs r. subst r.
    rewrite create_all_length, create_all_self, create_all_written.
    destruct (simple_mode_run rs (self (fresh device start false)) eq_refl)
      as [Hid Hk].
    simpl in *. repeat split; [done| |done].
    apply Forall_forall. intros s Hs.
    assert (kind_slot s ∈ fmap kind_slot
              (created_all (self (fresh device start false)) rs)) as Hin
      by (by apply list_elem_of_fmap_2).
    simpl in Hin. rewrite Hk in Hin.
    apply list_elem_of_fmap in Hin as (i & Hi & _).
    by inversion Hi.
  - intros device id start fm w r. by rewrite create_request_self.
Qed.

(** C2: a builder in extended layout, fresh from its constructor, after a
    sequence of at least four [create] calls has written scripts for the
    primary slots 1, 2, 3, then the one extended script, for slot 4, then
    logical scripts for the slots 5, 6, ... in order; so every extended
    script is for slot 4 and every logical script is for a slot of 5 or
    more. *)
Theorem extended_container_at_slot_4_logicals_from_5 :
  forall device start (rs : list request),
    (4 <= length rs)%nat ->
    let t :=
      written (trace (world (create_all rs (fresh device start true)).2)) in
    fmap kind_slot t =
      [(Primary, 1); (Primary, 2); (Primary, 3); (Extended, 4)] ++
      fmap (pair Logical) (seqZ 5 (Z.of_nat (length rs) - 3)) /\
    (forall s, s ∈ t -> fs_kind s = Extended -> fs_slot s = 4) /\
    (forall s, s ∈ t -> fs_kind s = Logical -> 5 <= fs_slot s) /\
    (exists s, t !! 3%nat = Some s /\ kind_slot s = (Extended, 4)).
Proof.
  intros device start rs Hlen t.
  destruct rs as [|r1 [|r2 [|r3 [|r4 rest]]]]; simpl in Hlen; try lia.
  assert (fmap kind_slot t =
      [(Primary, 1); (Primary, 2); (Primary, 3); (Extended, 4)] ++
      fmap (pair Logical)
        (seqZ 5 (Z.of_nat (length (r1 :: r2 :: r3 :: r4 :: rest)) - 3)))
    as Ht.
  { subst t. rewrite create_all_written.
    change (r1 :: r2 :: r3 :: r4 :: rest)
      with ([r1; r2; r3; r4] ++ rest).
    rewrite created_all_app.
    destruct (extended_mode_first_four device start msdos_flag_map
                r1 r2 r3 r4) as [Hc Ha].
    change (self (fresh device start true))
      with (mkPartitioner device 0 start true msdos_flag_map).
    rewrite Hc, Ha.
    destruct (logical_phase_run rest
                (mkPartitioner device 5 PNone true msdos_flag_map)
                eq_refl ltac:(simpl; lia)) as [_ Hk].
    simpl trace. simpl written. rewrite app_nil_l, fmap_app, Hk.
    simpl. do 4 f_equal.
    rewrite (seqZ_cons 5) by lia.
    rewrite fmap_cons. f_equal.
    replace (Z.pred (Z.of_nat (S (S (S (S (length rest))))) - 3))
      with (Z.of_nat (length rest)) by lia.
    done. }
  split; [exact Ht|].
  assert (forall s, s ∈ t ->
            kind_slot s ∈ [(Primary, 1); (Primary, 2); (Primary, 3);
                           (Extended, 4)] \/
            fs_kind s = Logical /\ 5 <= fs_slot s) as Hcases.
  { intros s Hs.
    assert (kind_slot s ∈ fmap kind_slot t) as Hin
      by (by apply list_elem_of_fmap_2).
    rewrite Ht in Hin. apply elem_of_app in Hin as [Hin|Hin]; [by left|].
    right. apply list_elem_of_fmap in Hin as (i & Hi & Hseq).
    apply elem_of_seqZ in Hseq. inversion Hi. split; [done|lia]. }
  repeat split.
  - intros s Hs Hk. destruct (Hcases s Hs) as [Hin|[Hl _]]; [|congruence].
    unfold kind_slot in Hin. rewrite Hk in Hin.
    repeat (apply elem_of_cons in Hin as [Hin|Hin];
            [by inversion Hin|]).
    by apply elem_of_nil in Hin.
  - intros s Hs Hk. destruct (Hcases s Hs) as [Hin|[_ Hge]]; [|done].
    unfold kind_slot in Hin. rewrite Hk in Hin.
    repeat (apply elem_of_cons in Hin as [Hin|Hin];
            [by inversion Hin|]).
    by apply elem_of_nil in Hin.
  - assert (fmap kind_slot t !! 3%nat = Some (Extended, 4)) as H3
      by (by rewrite Ht).
    rewrite list_lookup_fmap in H3.
    destruct (t !! 3%nat) as [s|]; [|done].
    exists s. split; [done|]. by inversion H3.
Qed.

(** ** The start sector *)

Lemma start_token_none : start_token PNone = "".
Proof. reflexivity. Qed.

Lemma route_not_primary p :
  route p <> ToPrimary -> 3 <= partition_id p.
Proof.
  unfold route. destruct (extended_layout p); [|done].
  destruct (Z.ltb_spec (partition_id p) 3); [done|lia].
Qed.

Lemma after_create_id p :
  partition_id (after_create p) =
  partition_id p +
  match route p with ToExtendedLogical => 2 | _ => 1 end.
Proof. unfold after_create. destruct (route p); simpl; lia. Qed.

Lemma created_start_empty p mbsize :
  1 <= partition_id p ->
  Forall (fun s => fs_start s = "") (created p mbsize).
Proof.
  intros Hid. unfold created. destruct (route p); repeat constructor.
  simpl. by destruct (Z.ltb_spec 1 (partition_id p + 1)); [|lia].
Qed.

Lemma created_all_start_empty rs p :
  1 <= partition_id p ->
  Forall (fun s => fs_start s = "") (created_all p rs).
Proof.
  revert p. induction rs as [|r rs IH]; intros p Hid; [constructor|].
  simpl. apply Forall_app. split; [by apply created_start_empty|].
  apply IH. rewrite after_create_id. destruct (route p); lia.
Qed.

Lemma after_create_start_none p :
  1 <= partition_id p ->
  (3 <= partition_id p -> start_sector p = PNone) ->
  start_sector (after_create p) = PNone.
Proof.
  intros Hid Hnone. unfold after_create. destruct (route p) eqn:R; simpl.
  - by destruct (Z.ltb_spec 1 (partition_id p + 1)); [|lia].
  - apply Hnone, route_not_primary. by rewrite R.
  - apply Hnone, route_not_primary. by rewrite R.
Qed.

Lemma after_all_start_none rs p :
  1 <= partition_id p -> start_sector p = PNone ->
  start_sector (after_all p rs) = PNone.
Proof.
  revert p. induction rs as [|r rs IH]; intros p Hid Hnone; [done|].
  simpl. apply IH.
  - rewrite after_create_id. destruct (route p); lia.
  - by apply after_create_start_none.
Qed.

(** C5: for a builder fresh from its constructor, in either layout, the
    first [create] call of a sequence writes the primary script of slot 1
    with the start sector as its start token (empty when the start sector
    is [None] or 0), and every script written after it, primary, extended
    or logical, has the empty start token; once a second call was made,
    the object's [start_sector] is [None]. *)
Theorem start_sector_only_for_first_primary :
  forall device start ext (r : request) (rs : list request),
    let m' := (create_all (r :: rs) (fresh device start ext)).2 in
    (exists rest,
       written (trace (world m')) =
         FdiskScript Primary 1 (start_token start)
           (size_token (rq_mbsize r)) :: rest /\
       Forall (fun s => fs_start s = "") rest) /\
    start_sector (self m') =
      match rs with [] => start | _ :: _ => PNone end.
Proof.
  intros device start ext r rs m'. subst m'.
  rewrite create_all_written, create_all_self.
  set (p0 := self (fresh device start ext)).
  assert (created p0 (rq_mbsize r) =
            [FdiskScript Primary 1 (start_token start)
               (size_token (rq_mbsize r))]) as Hc
    by (by destruct ext).
  assert (after_create p0 =
            mkPartitioner device 1 start ext msdos_flag_map) as Ha
    by (by destruct ext).
  cbn [created_all after_all]. rewrite Hc, Ha. split.
  - eexists. split; [reflexivity|].
    by apply created_all_start_empty.
  - destruct rs as [|r2 rs]; [done|].
    cbn [after_all]. apply after_all_start_none.
    + rewrite after_create_id. simpl. destruct (route _); lia.
    + apply after_create_start_none; simpl; lia.
Qed.

(** ** Which slot receives the flags *)

Lemma addresses_slot device s1 s2 argv :
  addresses device s1 argv -> addresses device s2 argv -> s1 = s2.
Proof.
  intros [->|[c1 ->]] [H|[c2 H]]; inversion H as [Heq];
    by apply (inj pretty).
Qed.

Lemma after_create_device p : disk_device (after_create p) = disk_device p.
Proof. unfold after_create. by destruct (route p). Qed.

Lemma after_create_flag_map p : flag_map (after_create p) = flag_map p.
Proof. unfold after_create. by destruct (route p). Qed.

(** In extended layout no [create] call ends with the counter at 4. *)
Lemma after_create_skips_4 p :
  extended_layout p = true -> 0 <= partition_id p -> partition_id p <> 4 ->
  0 <= partition_id (after_create p) /\ partition_id (after_create p) <> 4.
Proof.
  intros He H0 H4. rewrite after_create_id. unfold route. rewrite He.
  destruct (Z.ltb_spec (partition_id p) 3); [lia|].
  destruct (Z.eqb_spec (partition_id p) 3); lia.
Qed.

Lemma create_all_never_flags_slot_4 rs m :
  extended_layout (self m) = true ->
  0 <= partition_id (self m) -> partition_id (self m) <> 4 ->
  Forall (fun c => c.1 <> 4) (set_flag_calls (world m)) ->
  Forall (fun argv => ~ addresses (disk_device (self m)) 4 argv)
    (flag_commands (trace (world m))) ->
  let m' := (create_all rs m).2 in
  Forall (fun c => c.1 <> 4) (set_flag_calls (world m')) /\
  Forall (fun argv => ~ addresses (disk_device (self m)) 4 argv)
    (flag_commands (trace (world m'))).
Proof.
  revert m. induction rs as [|r rs IH]; intros m He H0 H4 Hc Hf; [done|].
  cbn zeta. rewrite create_all_cons.
  destruct (create_effect (rq_name r) (rq_mbsize r) (rq_type_name r)
              (rq_flags r) m) as [Hs [evs k [Ht Hcs] _ _ Ha _]].
  fold (create_request r m) in Hs, Ht, Hcs.
  destruct (after_create_skips_4 _ He H0 H4) as [H0' H4'].
  set (m1 := (create_request r m).2) in *.
  assert (disk_device (self m1) = disk_device (self m)) as Hdev
    by (by rewrite Hs, after_create_device).
  rewrite <- Hdev. apply IH.
  - by rewrite Hs, after_create_layout.
  - by rewrite Hs.
  - by rewrite Hs.
  - rewrite Hcs. apply Forall_app. split; [done|].
    constructor; [done|]. apply Forall_forall. intros c Hin.
    apply list_elem_of_fmap in Hin as (f & -> & _). done.
  - rewrite Hdev, Ht, flag_commands_app. apply Forall_app. split; [done|].
    eapply Forall_impl; [exact Ha|]. intros argv H1 H2.
    apply H4'. apply (addresses_slot _ _ _ _ H1 H2).
Qed.

(** [create] passes to [set_flag] only the names its caller gave it. *)
Lemma create_all_calls_from_caller rs m :
  exists cs,
    set_flag_calls (world (create_all rs m).2) =
      set_flag_calls (world m) ++ cs /\
    Forall (fun c => exists r, r ∈ rs /\
                       (c.2 = rq_type_name r \/ c.2 ∈ rq_flags r)) cs.
Proof.
  revert m. induction rs as [|r rs IH]; intros m.
  - exists []. split; [by rewrite app_nil_r|constructor].
  - rewrite create_all_cons.
    destruct (create_effect (rq_name r) (rq_mbsize r) (rq_type_name r)
                (rq_flags r) m) as [_ [evs k [_ Hcs] _ _ _ _]].
    fold (create_request r m) in Hcs.
    destruct (IH (create_request r m).2) as (cs & Hcs' & Hall).
    eexists. split; [by rewrite Hcs', Hcs, <- app_assoc|].
    apply Forall_app. split.
    + constructor.
      * exists r. split; [left|by left].
      * apply Forall_forall. intros c Hin.
        apply list_elem_of_fmap in Hin as (f & -> & Hf).
        exists r. split; [left|right]. simpl.
        by apply (subseteq_take k (rq_flags r)).
    + eapply Forall_impl; [exact Hall|].
      intros c (r' & Hr' & Hc). exists r'. split; [by right|done].
Qed.

(** The flags of the compound step: the [create] call at counter 3 of the
    extended layout applies the caller's names to slot 5. *)
Lemma compound_step_calls name mbsize ty flags device start fm (w : World) :
  let r :=
    create name mbsize ty flags
      (mkMachine (mkPartitioner device 3 start true fm) w) in
  match r.1 with
  | Ok _ =>
      set_flag_calls (world r.2) =
        set_flag_calls w ++ map (pair 5) (ty :: flags)
  | Raise _ =>
      exists l1 f l2,
        ty :: flags = l1 ++ f :: l2 /\
        set_flag_calls (world r.2) =
          set_flag_calls w ++ map (pair 5) (l1 ++ [f])
  end.
Proof.
  exact (create_calls name mbsize ty flags
           (mkMachine (mkPartitioner device 3 start true fm) w)).
Qed.

Lemma compound_step_good name mbsize ty flags device start fm (w : World) :
  flag_commands_succeed ->
  first_unknown fm (ty :: flags) = None ->
  let r :=
    create name mbsize ty flags
      (mkMachine (mkPartitioner device 3 start true fm) w) in
  r.1 = Ok tt /\
  set_flag_calls (world r.2) =
    set_flag_calls w ++ map (pair 5) (ty :: flags) /\
  flag_commands (trace (world r.2)) =
    flag_commands (trace w) ++ flat_map (applied device 5 fm) (ty :: flags).
Proof.
  intros Hgood Hknown.
  pose proof (create_good name mbsize ty flags
                (mkMachine (mkPartitioner device 3 start true fm) w) Hgood)
    as H.
  cbn zeta in H. cbn [self flag_map] in H. rewrite Hknown in H. exact H.
Qed.

(** C9: the [create] call made at counter 3 in extended layout writes the
    extended script for slot 4 and the logical script for slot 5; every
    [set_flag] call it makes is for slot 5, first with the caller's type
    name, then with the caller's flags in order (as far as no call
    raised); every flag-setting command it runs is addressed to slot 5
    and none to slot 4. Over any sequence of [create] calls on a fresh
    builder in extended layout, no [set_flag] call is made for slot 4, no
    flag-setting command is addressed to it, and every flag name passed
    to [set_flag] is the type name or one of the flags of a request:
    [create] applies no flag of its own, [t.extended] included. The call
    at counter 3 does apply the caller's names to the logical partition:
    when it returns, [set_flag] was called for slot 5 with the type name
    and with every flag, in order; when it raises, with the names up to
    the one that raised; and when the names are known and the
    flag-setting commands succeed it returns, having run for slot 5 the
    command of the type name and of every flag. *)
Theorem extended_container_receives_no_flag :
  (forall name mbsize ty flags device start fm (w : World),
     let m := mkMachine (mkPartitioner device 3 start true fm) w in
     let m' := (create name mbsize ty flags m).2 in
     exists evs k,
       trace (world m') = trace w ++ evs /\
       written evs =
         [FdiskScript Extended 4 "" "";
          FdiskScript Logical 5 "" (size_token mbsize)] /\
       set_flag_calls (world m') =
         set_flag_calls w ++ (5, ty) :: map (pair 5) (take k flags) /\
       Forall (addresses device 5) (flag_commands evs) /\
       Forall (fun argv => ~ addresses device 4 argv) (flag_commands evs)) /\
  (forall device start (rs : list request),
     let m' := (create_all rs (fresh device start true)).2 in
     Forall (fun c => c.1 <> 4) (set_flag_calls (world m')) /\
     Forall (fun argv => ~ addresses device 4 argv)
       (flag_commands (trace (world m'))) /\
     Forall (fun c => exists r, r ∈ rs /\
                        (c.2 = rq_type_name r \/ c.2 ∈ rq_flags r))
       (set_flag_calls (world m'))) /\
  (forall name mbsize ty flags device start fm (w : World),
     let r :=
       create name mbsize ty flags
         (mkMachine (mkPartitioner device 3 start true fm) w) in
     match r.1 with
     | Ok _ =>
         set_flag_calls (world r.2) =
           set_flag_calls w ++ map (pair 5) (ty :: flags)
     | Raise _ =>
         exists l1 f l2,
           ty :: flags = l1 ++ f :: l2 /\
           set_flag_calls (world r.2) =
             set_flag_calls w ++ map (pair 5) (l1 ++ [f])
     end) /\
  (flag_commands_succeed ->
   forall name mbsize ty flags device start fm (w : World),
     first_unknown fm (ty :: flags) = None ->
     let r :=
       create name mbsize ty flags
         (mkMachine (mkPartitioner device 3 start true fm) w) in
     r.1 = Ok tt /\
     set_flag_calls (world r.2) =
       set_flag_calls w ++ map (pair 5) (ty :: flags) /\
     flag_commands (trace (world r.2)) =
       flag_commands (trace w) ++
       flat_map (applied device 5 fm) (ty :: flags)).
Proof.
  split; [|split; [|split]].
  4:{ intros Hgood name mbsize ty flags device start fm w Hknown.
      by apply compound_step_good. }
  3:{ intros name mbsize ty flags device start fm w.
      apply compound_step_calls. }
  - intros name mbsize ty flags device start fm w m m'.
    destruct (create_effect name mbsize ty flags m)
      as [_ [evs k [Ht Hcs] Hw _ Ha _]].
    exists evs, k. repeat split; try done.
    eapply Forall_impl; [exact Ha|]. intros argv H1 H2.
    by pose proof (addresses_slot _ _ _ _ H1 H2).
  - intros device start rs m'.
    destruct (create_all_never_flags_slot_4 rs (fresh device start true))
      as [H1 H2]; try done.
    destruct (create_all_calls_from_caller rs (fresh device start true))
      as (cs & Hcs & Hall).
    subst m'. split; [exact H1|]. split; [exact H2|].
    rewrite Hcs. exact Hall.
Qed.

(** C10: every [create] call, whatever it returns or raises, leaves the
    counter advanced (by 2 for the call at the primary boundary of the
    extended layout, by 1 otherwise), its scripts written for slots above
    the old counter, and fdisk run once for each script, all of that
    before the first flag-setting command. The call raises
    the unknown-flag error when the type name is not a key of the flag
    map, and, the flag-setting commands succeeding, when any of the
    secondary flags is not: the error names the first unknown one. *)
Theorem create_keeps_counter_and_script_on_flag_error :
  (forall name mbsize ty flags (m : machine),
     let r := create name mbsize ty flags m in
     partition_id (self r.2) =
       partition_id (self m) +
       match route (self m) with ToExtendedLogical => 2 | _ => 1 end /\
     exists pre post,
       trace (world r.2) = trace (world m) ++ pre ++ post /\
       written pre <> [] /\
       Forall (fun s => partition_id (self m) < fs_slot s) (written pre) /\
       length (fdisk_commands pre) = length (written pre) /\
       flag_commands pre = [] /\
       written post = [] /\ fdisk_commands post = []) /\
  (forall name mbsize ty flags (m : machine),
     flag_map (self m) !! ty = None ->
     (create name mbsize ty flags m).1 =
       Raise (KiwiPartitionerMsDosFlagError
                ("Unknown partition flag " +:+ ty))) /\
  (flag_commands_succeed ->
   forall name mbsize ty flags (m : machine) (f : string),
     first_unknown (flag_map (self m)) (ty :: flags) = Some f ->
     (create name mbsize ty flags m).1 =
       Raise (KiwiPartitionerMsDosFlagError
                ("Unknown partition flag " +:+ f))).
Proof.
  split; [|split].
  - intros name mbsize ty flags m r. subst r.
    destruct (create_effect name mbsize ty flags m)
      as [Hs [evs k [Ht _] _ Hf _
                (pre & post & -> & Hpw & Hpf & Hqw & Hqf)]].
    split; [by rewrite Hs, after_create_id|].
    exists pre, post.
    rewrite fdisk_commands_app, Hqf, app_nil_r in Hf.
    rewrite Hpw. repeat split; try done.
    + unfold created. by destruct (route (self m)).
    + unfold created. destruct (route (self m));
        repeat constructor; simpl; lia.
  - intros name mbsize ty flags m Hty.
    apply create_type_raises. intros m' Hfm _.
    rewrite <- Hfm in Hty. by rewrite (set_flag_unknown _ _ _ Hty).
  - intros Hgood name mbsize ty flags m f Hf.
    pose proof (create_good name mbsize ty flags m Hgood) as H.
    cbn zeta in H. by rewrite Hf in H.
Qed.

(** ** The end-to-end scenario *)

Lemma create_all_cons_fst r rs m :
  (create_all (r :: rs) m).1 =
  (create_request r m).1 :: (create_all rs (create_request r m).2).1.
Proof.
  simpl. destruct (create_request r m) as [o m1]. simpl.
  by destruct (create_all rs m1).
Qed.

Lemma create_all_good rs m :
  flag_commands_succeed ->
  Forall (fun r =>
            first_unknown (flag_map (self m))
              (rq_type_name r :: rq_flags r) = None) rs ->
  let r := create_all rs m in
  r.1 = (fun _ => Ok tt) <$> rs /\
  set_flag_calls (world r.2) =
    set_flag_calls (world m) ++ calls_all (self m) rs /\
  flag_commands (trace (world r.2)) =
    flag_commands (trace (world m)) ++ flag_commands_all (self m) rs.
Proof.
  intros Hgood. revert m. induction rs as [|r rs IH]; intros m Hknown.
  - simpl. by rewrite !app_nil_r.
  - apply Forall_cons in Hknown as [Hr Hrs]. cbn zeta.
    rewrite create_all_cons, create_all_cons_fst.
    pose proof (create_good (rq_name r) (rq_mbsize r) (rq_type_name r)
                  (rq_flags r) m Hgood) as H.
    cbn zeta in H. rewrite Hr in H. destruct H as (Ho & Hc & Hf).
    fold (create_request r m) in Ho, Hc, Hf.
    pose proof (create_request_self r m) as Hs.
    destruct (IH (create_request r m).2) as (Ho' & Hc' & Hf').
    { rewrite Hs, after_create_flag_map. exact Hrs. }
    rewrite Ho, Ho', Hc', Hc, Hf', Hf, Hs.
    cbn [calls_all flag_commands_all]. by rewrite <- !app_assoc.
Qed.

(** C1 (amended): in extended layout the compound step is taken by the
    [create] call made at counter 3, the fourth request of a fresh
    builder: it writes the extended script for slot 4 with empty start
    and size tokens, then the logical script for slot 5 with the caller's
    size, applies the caller's type and flags to slot 5 and leaves the
    counter at 5. The three requests of the end-to-end scenario all take
    the primary branch: slot 1 primary of type t.linux, slot 2 primary of
    type t.swap, slot 3 primary of type t.linux, with the parted boot
    command addressed to slot 3 and the start sector given for slot 1
    only. The caller's type and flags reach the logical partition in
    full: the call at counter 3 that returns has called [set_flag] for
    slot 5 with the type name and every flag, in order (one that raises,
    with the names up to the one that raised), and with known names and
    succeeding flag-setting commands it returns and has run the command
    of each of them for slot 5; so has a fourth request after the three
    of the scenario. *)
Theorem compound_step_at_counter_3_scenario_all_primary :
  (forall name mbsize ty flags device start fm (w : World),
     let r :=
       create name mbsize ty flags
         (mkMachine (mkPartitioner device 3 start true fm) w) in
     partition_id (self r.2) = 5 /\
     written (trace (world r.2)) =
       written (trace w) ++
       [FdiskScript Extended 4 "" "";
        FdiskScript Logical 5 "" (size_token mbsize)] /\
     exists k,
       set_flag_calls (world r.2) =
         set_flag_calls w ++ (5, ty) :: map (pair 5) (take k flags)) /\
  (flag_commands_succeed ->
   forall device start,
     let r := create_all end_to_end (fresh device start true) in
     r.1 = [Ok tt; Ok tt; Ok tt] /\
     partition_id (self r.2) = 3 /\
     written (trace (world r.2)) =
       [FdiskScript Primary 1 (start_token start) "+50M";
        FdiskScript Primary 2 "" "+2048M";
        FdiskScript Primary 3 "" ""] /\
     set_flag_calls (world r.2) =
       [(1, "t.linux"); (2, "t.swap"); (3, "t.linux"); (3, "f.active")] /\
     flag_commands (trace (world r.2)) =
       [sfdisk_argv device 1 (PStr "83");
        sfdisk_argv device 2 (PStr "82");
        sfdisk_argv device 3 (PStr "83");
        parted_argv device 3]) /\
  (forall device start (r4 : request),
     written
       (trace (world
          (create_all (end_to_end ++ [r4]) (fresh device start true)).2)) =
       [FdiskScript Primary 1 (start_token start) "+50M";
        FdiskScript Primary 2 "" "+2048M";
        FdiskScript Primary 3 "" "";
        FdiskScript Extended 4 "" "";
        FdiskScript Logical 5 "" (size_token (rq_mbsize r4))]) /\
  (forall name mbsize ty flags device start fm (w : World),
     let r :=
       create name mbsize ty flags
         (mkMachine (mkPartitioner device 3 start true fm) w) in
     match r.1 with
     | Ok _ =>
         set_flag_calls (world r.2) =
           set_flag_calls w ++ map (pair 5) (ty :: flags)
     | Raise _ =>
         exists l1 f l2,
           ty :: flags = l1 ++ f :: l2 /\
           set_flag_calls (world r.2) =
             set_flag_calls w ++ map (pair 5) (l1 ++ [f])
     end) /\
  (flag_commands_succeed ->
   forall name mbsize ty flags device start fm (w : World),
     first_unknown fm (ty :: flags) = None ->
     let r :=
       create name mbsize ty flags
         (mkMachine (mkPartitioner device 3 start true fm) w) in
     r.1 = Ok tt /\
     set_flag_calls (world r.2) =
       set_flag_calls w ++ map (pair 5) (ty :: flags) /\
     flag_commands (trace (world r.2)) =
       flag_commands (trace w) ++
       flat_map (applied device 5 fm) (ty :: flags)) /\
  (flag_commands_succeed ->
   forall device start (r4 : request),
     first_unknown msdos_flag_map (rq_type_name r4 :: rq_flags r4) = None ->
     let r := create_all (end_to_end ++ [r4]) (fresh device start true) in
     r.1 = [Ok tt; Ok tt; Ok tt; Ok tt] /\
     partition_id (self r.2) = 5 /\
     set_flag_calls (world r.2) =
       [(1, "t.linux"); (2, "t.swap"); (3, "t.linux"); (3, "f.active")] ++
       map (pair 5) (rq_type_name r4 :: rq_flags r4) /\
     flag_commands (trace (world r.2)) =
       [sfdisk_argv device 1 (PStr "83");
        sfdisk_argv device 2 (PStr "82");
        sfdisk_argv device 3 (PStr "83");
        parted_argv device 3] ++
       flat_map (applied device 5 msdos_flag_map)
         (rq_type_name r4 :: rq_flags r4)).
Proof.
  split; [|split; [|split; [|split; [|split]]]].
  6:{ intros Hgood device start r4 Hknown r. subst r.
      destruct (create_all_good (end_to_end ++ [r4])
                  (fresh device start true) Hgood) as (Ho & Hc & Hf).
      { apply Forall_app. split; [repeat constructor|].
        constructor; [exact Hknown|constructor]. }
      rewrite Ho, Hc, Hf, create_all_self.
      cbn [end_to_end app calls_all flag_commands_all after_all].
      repeat split; simpl; by rewrite ?app_nil_r. }
  5:{ intros Hgood name mbsize ty flags device start fm w Hknown.
      by apply compound_step_good. }
  4:{ intros name mbsize ty flags device start fm w.
      apply compound_step_calls. }
  - intros name mbsize ty flags device start fm w r. subst r.
    destruct (create_effect name mbsize ty flags
                (mkMachine (mkPartitioner device 3 start true fm) w))
      as [Hs [evs k [Ht Hcs] Hw _ _ _]].
    rewrite Hs, Ht, written_app, Hw. repeat split. by exists k.
  - intros Hgood device start r. subst r.
    destruct (create_all_good end_to_end (fresh device start true) Hgood)
      as (Ho & Hc & Hf).
    { repeat constructor. }
    rewrite Ho, Hc, Hf, create_all_self, create_all_written.
    repeat split.
  - intros device start r4. by rewrite create_all_written.
Qed.

(** ** The script text determines kind and slot *)

Lemma pretty_N_go_numeric x s :
  all_numeric s = true -> all_numeric (pretty_N_go x s) = true.
Proof.
  revert s. induction (N.lt_wf_0 x) as [x _ IH]; intros s Hs.
  assert (x = 0 \/ 0 < x)%N as [->|Hpos] by lia.
  - by rewrite pretty_N_go_0.
  - rewrite pretty_N_go_step by done. apply IH.
    + by apply N.div_lt.
    + simpl. by rewrite pretty_N_char_numeric.
Qed.

Lemma pretty_Z_numeric (z : Z) : all_numeric (pretty z) = true.
Proof.
  destruct z as [|x|x]; [done|..];
    unfold pretty, pretty_Z, pretty, pretty_positive, pretty, pretty_N;
    (case_decide; [done|]); simpl; by apply pretty_N_go_numeric.
Qed.

(** Two numerals followed by a newline agree when the texts agree. *)
Lemma numeric_line_inj a b x y :
  all_numeric a = true -> all_numeric b = true ->
  a +:+ nl +:+ x = b +:+ nl +:+ y -> a = b.
Proof.
  revert b. induction a as [|c a IH]; intros [|d b] Ha Hb H; simpl in *.
  - done.
  - inversion H; subst. by apply andb_true_iff in Hb as [Hd _].
  - inversion H; subst. by apply andb_true_iff in Ha as [Hc _].
  - apply andb_true_iff in Ha as [_ Ha]. apply andb_true_iff in Hb as [_ Hb].
    inversion H; subst. f_equal. by apply IH.
Qed.

(** X1: the text of a script determines the template it was made from
    and the slot number in it: two scripts with the same text are of the
    same kind (primary, extended or logical) and for the same slot. *)
Theorem script_text_determines_kind_and_slot :
  forall s1 s2 : fdisk_script,
    script_text s1 = script_text s2 ->
    fs_kind s1 = fs_kind s2 /\ fs_slot s1 = fs_slot s2.
Proof.
  intros s1 s2 H. pose proof (script_text_kind s1 s2 H) as Hk.
  split; [exact Hk|].
  unfold script_text, format in H. rewrite Hk in H.
  apply (inj pretty).
  apply (numeric_line_inj _ _
           (fs_start s1 +:+ nl +:+ fs_size s1 +:+ nl +:+ "w" +:+ nl +:+
            "q" +:+ nl)
           (fs_start s2 +:+ nl +:+ fs_size s2 +:+ nl +:+ "w" +:+ nl +:+
            "q" +:+ nl));
    [apply pretty_Z_numeric..|].
  destruct (fs_kind s2); simpl in H; by inversion H.
Qed.

(** ** The footprint of [set_flag] and its dispatch on the msdos map *)

Lemma set_flag_footprint pid f m :
  let r := set_flag pid f m in
  self r.2 = self m /\
  tmp_files (world r.2) = tmp_files (world m) /\
  exists evs,
    trace (world r.2) = trace (world m) ++ evs /\
    length evs =
      match flag_map (self m) !! f with Some _ => 1%nat | None => 0%nat end /\
    written evs = [] /\ fdisk_commands evs = [] /\ script_files evs = [].
Proof.
  intros r. subst r. destruct (flag_map (self m) !! f) as [code|] eqn:Hf.
  - destruct (truthy code) eqn:Hc.
    + rewrite (set_flag_supported _ _ _ _ Hf Hc). simpl.
      repeat split. eexists. repeat split.
      unfold fdisk_commands. simpl. rewrite filter_cons_False; [done|].
      by rewrite (addresses_not_fdisk _ _ _
                    (flag_argv_addresses (disk_device (self m)) pid f code)).
    + rewrite (set_flag_unsupported _ _ _ _ Hf Hc). simpl.
      repeat split. eexists. by repeat split.
  - rewrite (set_flag_unknown _ _ _ Hf). simpl.
    repeat split. exists []. by rewrite app_nil_r.
Qed.

(** X2: a [set_flag] call never changes the object, takes no temporary
    file, writes no script and runs no fdisk; for a name in the flag map
    it adds exactly one event to the trace (one command or one warning),
    for a name not in the map none. *)
Theorem set_flag_does_one_thing :
  forall (pid : Z) (flag_name : string) (m : machine),
    let r := set_flag pid flag_name m in
    self r.2 = self m /\
    tmp_files (world r.2) = tmp_files (world m) /\
    exists evs,
      trace (world r.2) = trace (world m) ++ evs /\
      length evs =
        match flag_map (self m) !! flag_name with
        | Some _ => 1%nat
        | None => 0%nat
        end /\
      written evs = [] /\ fdisk_commands evs = [].
Proof.
  intros pid f m r.
  destruct (set_flag_footprint pid f m) as (Hs & Ht & evs & H1 & H2 & H3 & H4 & _).
  split; [exact Hs|]. split; [exact Ht|]. by exists evs.
Qed.

Lemma msdos_flag_map_unknown f :
  msdos_flag_map !! f = None <->
  f ∉ "f.active" :: "t.efi" :: "t.csm" :: msdos_type_codes.*1.
Proof.
  unfold msdos_flag_map, msdos_type_codes. simpl.
  rewrite !lookup_insert_None, !not_elem_of_cons, lookup_empty.
  split; intros H; repeat split; try apply not_elem_of_nil;
    intros Heq; symmetry in Heq; tauto.
Qed.

(** X3: on an object set up by [post_init], [set_flag] with [f.active]
    runs the parted boot command for the slot, and with a type name runs
    the sfdisk command with the code of that type: 83 for t.linux, 82 for
    t.swap, 8e for t.lvm, fd for t.raid, 41 for t.prep, 5 for t.extended;
    each call runs that one command and no other. The names not in the
    map are exactly those outside these seven and t.efi, t.csm. *)
Theorem set_flag_dispatch_on_msdos_map :
  forall (p : PartitionerMsDos) (w : World) (pid : Z),
    let m := mkMachine (post_init p) w in
    commands (trace (world (set_flag pid "f.active" m).2)) =
      commands (trace w) ++ [parted_argv (disk_device p) pid] /\
    Forall
      (fun nc =>
         commands (trace (world (set_flag pid nc.1 m).2)) =
           commands (trace w) ++
           [sfdisk_argv (disk_device p) pid (PStr nc.2)])
      msdos_type_codes /\
    (forall f,
       flag_map (post_init p) !! f = None <->
       f ∉ "f.active" :: "t.efi" :: "t.csm" :: msdos_type_codes.*1).
Proof.
  intros p w pid m. split; [|split].
  - rewrite (set_flag_supported pid "f.active" (PBool true) m eq_refl eq_refl).
    simpl. by rewrite commands_app.
  - repeat constructor; simpl;
      match goal with
      | |- context [set_flag pid ?f m] =>
          match goal with
          | |- context [sfdisk_argv _ _ ?c] =>
              rewrite (set_flag_supported pid f c m eq_refl eq_refl)
          end
      end; simpl; by rewrite commands_app.
  - intros f. apply msdos_flag_map_unknown.
Qed.

(** ** The start token of the first script *)

Lemma pretty_Z_nonempty (z : Z) : pretty z <> "".
Proof.
  intros H. pose proof (pretty_Z_head z) as Hh. by rewrite H in Hh.
Qed.

(** X4: the first [create] call on a fresh builder, in either layout,
    gives the start sector in its script exactly when the start sector is
    a non-zero integer: for the start sector 0 the token is empty, as it
    is for [None], so fdisk picks its default. *)
Theorem start_sector_zero_is_unset :
  forall device (z : Z) ext (r : request),
    (exists s,
       written
         (trace (world (create_request r (fresh device (PInt z) ext)).2)) =
         [s] /\
       (fs_start s = "" <-> z = 0) /\
       fs_start s = if decide (z = 0) then "" else pretty z) /\
    (exists s,
       written
         (trace (world (create_request r (fresh device PNone ext)).2)) =
         [s] /\
       fs_start s = "").
Proof.
  intros device z ext r. split.
  - rewrite create_request_written.
    assert (created (self (fresh device (PInt z) ext)) (rq_mbsize r) =
              [FdiskScript Primary 1 (start_token (PInt z))
                 (size_token (rq_mbsize r))]) as ->
      by (by destruct ext).
    eexists. split; [reflexivity|]. simpl. unfold start_token. simpl.
    destruct (decide (z = 0)) as [->|Hz]; [done|].
    destruct (Z.eqb_spec z 0); [done|]. simpl. split; [|done].
    split; [|done]. intros H. by destruct (pretty_Z_nonempty z).
  - rewrite create_request_written.
    assert (created (self (fresh device PNone ext)) (rq_mbsize r) =
              [FdiskScript Primary 1 "" (size_token (rq_mbsize r))]) as ->
      by (by destruct ext).
    by eexists.
Qed.

(** ** Slot numbering *)

Lemma created_slots p mbsize :
  fs_slot <$> created p mbsize =
    seqZ (partition_id p + 1) (Z.of_nat (length (created p mbsize))) /\
  partition_id (after_create p) =
    partition_id p + Z.of_nat (length (created p mbsize)).
Proof.
  unfold created, after_create. destruct (route p); simpl.
  - split; [|lia]. by rewrite (seqZ_cons _ 1), seqZ_nil by lia.
  - split; [|lia].
    rewrite (seqZ_cons _ 2) by lia. rewrite (seqZ_cons _ (Z.pred 2)) by lia.
    rewrite seqZ_nil by lia. reflexivity.
  - split; [|lia]. by rewrite (seqZ_cons _ 1), seqZ_nil by lia.
Qed.

Lemma created_all_slots rs p :
  fs_slot <$> created_all p rs =
    seqZ (partition_id p + 1) (Z.of_nat (length (created_all p rs))) /\
  partition_id (after_all p rs) =
    partition_id p + Z.of_nat (length (created_all p rs)).
Proof.
  revert p. induction rs as [|r rs IH]; intros p.
  - simpl. split; [done|lia].
  - cbn [created_all after_all].
    destruct (created_slots p (rq_mbsize r)) as [Hc Ha].
    destruct (IH (after_create p)) as [Hc' Ha'].
    rewrite length_app, Nat2Z.inj_add, fmap_app, Hc, Hc', Ha', Ha.
    split; [|lia]. rewrite seqZ_app by lia. do 2 f_equal. lia.
Qed.

Lemma crosses_boundary_spec p n :
  crosses_boundary p n = true <->
  extended_layout p = true /\ partition_id p <= 3 /\
  3 < partition_id p + Z.of_nat n.
Proof.
  unfold crosses_boundary.
  rewrite !andb_true_iff, Z.leb_le, Z.ltb_lt. tauto.
Qed.

Lemma created_all_count rs p :
  length (created_all p rs) =
  (length rs + if crosses_boundary p (length rs) then 1 else 0)%nat.
Proof.
  revert p. induction rs as [|r rs IH]; intros p.
  - simpl. destruct (crosses_boundary p 0) eqn:E; [|done].
    apply crosses_boundary_spec in E. lia.
  - cbn [created_all length]. rewrite length_app, IH.
    assert (forall q k, (crosses_boundary q k = false) ->
              ~ (extended_layout q = true /\ partition_id q <= 3 /\
                 3 < partition_id q + Z.of_nat k)) as Hfalse.
    { intros q k E H. apply crosses_boundary_spec in H. congruence. }
    unfold created, after_create.
    destruct (extended_layout p) eqn:He;
      [destruct (decide (partition_id p < 3)) as [Hlt|Hge];
       [rewrite (route_primary p He Hlt)
       |destruct (decide (partition_id p = 3)) as [H3|Hne];
        [rewrite (route_boundary p He H3)
        |rewrite (route_logical p He ltac:(lia))]]
      |rewrite (route_simple p He)];
      (destruct (crosses_boundary p (S (length rs))) eqn:E1;
       [apply crosses_boundary_spec in E1|apply Hfalse in E1]);
      match goal with
      | |- context [crosses_boundary ?q (length rs)] =>
          destruct (crosses_boundary q (length rs)) eqn:E2;
          [apply crosses_boundary_spec in E2|apply Hfalse in E2]
      end;
      simpl in *; rewrite ?He in *; try lia; exfalso;
      first [apply E1|apply E2]; repeat split; try done; try lia;
      destruct E1 as (? & ? & ?) || destruct E2 as (? & ? & ?);
      try done; lia.
Qed.

(** X5: slot numbers are handed out without gaps or repeats: over any
    sequence of [create] calls on any object, in either layout and
    whatever the calls return or raise, the scripts written carry the
    consecutive slot numbers following the counter, and the counter ends
    at the last of them. The number of scripts is the number of calls,
    plus one when the sequence takes the compound step of the extended
    layout. *)
Theorem slots_are_consecutive :
  forall (rs : list request) (m : machine),
    let m' := (create_all rs m).2 in
    exists new,
      written (trace (world m')) = written (trace (world m)) ++ new /\
      fs_slot <$> new =
        seqZ (partition_id (self m) + 1) (Z.of_nat (length new)) /\
      partition_id (self m') =
        partition_id (self m) + Z.of_nat (length new) /\
      length new =
        (length rs +
         if crosses_boundary (self m) (length rs) then 1 else 0)%nat.
Proof.
  intros rs m m'. subst m'. exists (created_all (self m) rs).
  rewrite create_all_written, create_all_self.
  destruct (created_all_slots rs (self m)) as [Hc Ha].
  repeat split; [exact Hc|exact Ha|apply created_all_count].
Qed.

(** ** The layout of the extended mode, for every length *)

Lemma primary_phase_run rs p :
  extended_layout p = true ->
  partition_id p + Z.of_nat (length rs) <= 3 ->
  kind_slot <$> created_all p rs =
    pair Primary <$> seqZ (partition_id p + 1) (Z.of_nat (length rs)).
Proof.
  revert p. induction rs as [|r rs IH]; intros p He Hid; [done|].
  cbn [created_all length] in *.
  pose proof (route_primary p He ltac:(lia)) as R.
  rewrite fmap_app, IH.
  - unfold after_create, created. rewrite R. simpl.
    rewrite (seqZ_cons (partition_id p + 1)) by lia.
    rewrite fmap_cons. do 3 f_equal; lia.
  - by rewrite after_create_layout.
  - unfold after_create. rewrite R. simpl. lia.
Qed.

Lemma extended_mode_layout device start fm (rs : list request) :
  kind_slot <$> created_all (mkPartitioner device 0 start true fm) rs =
    (pair Primary <$> seqZ 1 (Z.of_nat (length rs) `min` 3)) ++
    if decide (4 <= length rs)%nat
    then (Extended, 4) ::
         (pair Logical <$> seqZ 5 (Z.of_nat (length rs) - 3))
    else [].
Proof.
  destruct (decide (4 <= length rs)%nat) as [Hlen|Hlen].
  - destruct rs as [|r1 [|r2 [|r3 [|r4 rest]]]]; simpl in Hlen; try lia.
    change (r1 :: r2 :: r3 :: r4 :: rest) with ([r1; r2; r3; r4] ++ rest).
    rewrite created_all_app.
    destruct (extended_mode_first_four device start fm r1 r2 r3 r4)
      as [Hc Ha].
    cbn zeta in Hc, Ha. rewrite Hc, Ha.
    destruct (logical_phase_run rest (mkPartitioner device 5 PNone true fm)
                eq_refl ltac:(simpl; lia)) as [_ Hk].
    rewrite fmap_app, Hk, length_app.
    replace (Z.of_nat (length [r1; r2; r3; r4] + length rest) `min` 3)
      with 3 by (simpl; lia).
    simpl. do 4 f_equal.
    rewrite (seqZ_cons 5) by lia. rewrite fmap_cons. f_equal.
    replace (Z.pred
               (Z.of_nat (S (S (S (S (length rest))))) - 3))
      with (Z.of_nat (length rest)) by lia.
    done.
  - rewrite app_nil_r.
    rewrite (primary_phase_run rs (mkPartitioner device 0 start true fm)
               eq_refl) by (simpl; lia).
    simpl. do 2 f_equal. lia.
Qed.

(** X6: the scripts of a fresh builder in extended layout, for a sequence
    of [create] calls of any length: the first three calls create the
    primary partitions 1, 2, 3 and nothing else; from the fourth call on
    there is the one extended container, slot 4, and after it only
    logical partitions. So no more than three primary partitions and no
    more than one extended container are ever created. *)
Theorem extended_layout_for_every_length :
  forall device start (rs : list request),
    kind_slot <$>
      written (trace (world (create_all rs (fresh device start true)).2)) =
    (pair Primary <$> seqZ 1 (Z.of_nat (length rs) `min` 3)) ++
    if decide (4 <= length rs)%nat
    then (Extended, 4) ::
         (pair Logical <$> seqZ 5 (Z.of_nat (length rs) - 3))
    else [].
Proof.
  intros device start rs. rewrite create_all_written.
  apply (extended_mode_layout device start msdos_flag_map rs).
Qed.

(** ** Temporary files and fdisk invocations *)

Lemma script_files_app t1 t2 :
  script_files (t1 ++ t2) = script_files t1 ++ script_files t2.
Proof. apply omap_app. Qed.

Lemma fdisk_events_files m msg s :
  script_files (fdisk_events m msg s) =
    [Temporary_name (tmp_files (world m))] /\
  fdisk_commands (fdisk_events m msg s) =
    [fdisk_argv (disk_device (self m))
       (Temporary_name (tmp_files (world m)))].
Proof. unfold fdisk_events. simpl. by destruct (Command_outcome _ _). Qed.

Lemma for_each_set_flag_footprint flags m :
  let r :=
    for_each flags (fun flag_name =>
      p ← get_self; set_flag (partition_id p) flag_name) m in
  tmp_files (world r.2) = tmp_files (world m) /\
  script_files (trace (world r.2)) = script_files (trace (world m)) /\
  fdisk_commands (trace (world r.2)) = fdisk_commands (trace (world m)).
Proof.
  revert m. induction flags as [|f flags IH]; intros m; simpl; [done|].
  step_m.
  destruct (set_flag_footprint (partition_id (self m)) f m)
    as (_ & Ht & evs & Htr & _ & _ & Hfd & Hsf).
  destruct (set_flag (partition_id (self m)) f m) as [[[]|e] m1];
    simpl in *.
  - destruct (IH m1) as (Ht' & Hsf' & Hfd'). simpl in *.
    rewrite Ht', Hsf', Hfd', Ht, Htr, script_files_app, fdisk_commands_app,
      Hsf, Hfd, !app_nil_r.
    done.
  - by rewrite Ht, Htr, script_files_app, fdisk_commands_app, Hsf, Hfd,
      !app_nil_r.
Qed.

Lemma _set_all_flags_footprint ty flags m :
  let r := _set_all_flags ty flags m in
  tmp_files (world r.2) = tmp_files (world m) /\
  script_files (trace (world r.2)) = script_files (trace (world m)) /\
  fdisk_commands (trace (world r.2)) = fdisk_commands (trace (world m)).
Proof.
  unfold _set_all_flags. step_m.
  replace (if bool_decide (flags <> []) then _ else mret tt)
    with (for_each flags (fun flag_name =>
            p ← get_self; set_flag (partition_id p) flag_name)).
  2:{ case_bool_decide as Hfl; [done|]. by destruct flags. }
  exact (for_each_set_flag_footprint (ty :: flags) m).
Qed.

Lemma scripted_then_flags_files m p' msg s ty flags :
  let m' := (_set_all_flags ty flags (scripted m p' msg s)).2 in
  tmp_files (world m') = S (tmp_files (world m)) /\
  script_files (trace (world m')) =
    script_files (trace (world m)) ++
    [Temporary_name (tmp_files (world m))] /\
  fdisk_commands (trace (world m')) =
    fdisk_commands (trace (world m)) ++
    [fdisk_argv (disk_device (self m))
       (Temporary_name (tmp_files (world m)))].
Proof.
  intros m'.
  destruct (_set_all_flags_footprint ty flags (scripted m p' msg s))
    as (Ht & Hsf & Hfd).
  fold m' in Ht, Hsf, Hfd.
  destruct (fdisk_events_files m msg s) as [Hf1 Hf2].
  rewrite Ht, Hsf, Hfd. simpl.
  by rewrite script_files_app, fdisk_commands_app, Hf1, Hf2.
Qed.

Lemma create_files name mbsize ty flags m :
  let m' := (create name mbsize ty flags m).2 in
  let n := length (created (self m) mbsize) in
  let paths := Temporary_name <$> seq (tmp_files (world m)) n in
  tmp_files (world m') = (tmp_files (world m) + n)%nat /\
  script_files (trace (world m')) =
    script_files (trace (world m)) ++ paths /\
  fdisk_commands (trace (world m')) =
    fdisk_commands (trace (world m)) ++
    (fdisk_argv (disk_device (self m)) <$> paths).
Proof.
  cbn zeta. rewrite create_run. unfold created.
  destruct (route (self m)).
  - rewrite _create_primary_run.
    destruct (scripted_then_flags_files m (bump_primary (self m))
                (primary_msg name (partition_id (self m) + 1) mbsize)
                (FdiskScript Primary (partition_id (self m) + 1)
                   (start_token (start_sector (bump_primary (self m))))
                   (size_token mbsize)) ty flags) as (H1 & H2 & H3).
    rewrite H1, H2, H3. simpl. split; [lia|done].
  - rewrite _create_logical_run.
    set (m0 := scripted m _ _ _).
    destruct (scripted_then_flags_files m0 (bump (self m0))
                (logical_msg name (partition_id (self m0) + 1) mbsize)
                (FdiskScript Logical (partition_id (self m0) + 1) ""
                   (size_token mbsize)) ty flags) as (H1 & H2 & H3).
    destruct (fdisk_events_files m
                (extended_msg name (partition_id (self m) + 1))
                (FdiskScript Extended (partition_id (self m) + 1) "" ""))
      as [Hf1 Hf2].
    rewrite H1, H2, H3. subst m0. simpl.
    rewrite script_files_app, fdisk_commands_app, Hf1, Hf2, <- !app_assoc.
    split; [lia|done].
  - rewrite _create_logical_run.
    destruct (scripted_then_flags_files m (bump (self m))
                (logical_msg name (partition_id (self m) + 1) mbsize)
                (FdiskScript Logical (partition_id (self m) + 1) ""
                   (size_token mbsize)) ty flags) as (H1 & H2 & H3).
    rewrite H1, H2, H3. simpl. split; [lia|done].
Qed.

Lemma after_all_device rs p : disk_device (after_all p rs) = disk_device p.
Proof.
  revert p. induction rs as [|r rs IH]; intros p; [done|].
  simpl. by rewrite IH, after_create_device.
Qed.

Lemma create_all_files rs m :
  let m' := (create_all rs m).2 in
  let n := length (created_all (self m) rs) in
  let paths := Temporary_name <$> seq (tmp_files (world m)) n in
  tmp_files (world m') = (tmp_files (world m) + n)%nat /\
  script_files (trace (world m')) =
    script_files (trace (world m)) ++ paths /\
  fdisk_commands (trace (world m')) =
    fdisk_commands (trace (world m)) ++
    (fdisk_argv (disk_device (self m)) <$> paths).
Proof.
  revert m. induction rs as [|r rs IH]; intros m.
  - simpl. by rewrite Nat.add_0_r, !app_nil_r.
  - cbn zeta. rewrite create_all_cons.
    destruct (create_files (rq_name r) (rq_mbsize r) (rq_type_name r)
                (rq_flags r) m) as (H1 & H2 & H3).
    fold (create_request r m) in H1, H2, H3.
    destruct (IH (create_request r m).2) as (H1' & H2' & H3').
    rewrite H1', H2', H3', H1, H2, H3, create_request_self,
      after_create_device.
    cbn [created_all]. rewrite length_app, seq_app, !fmap_app, <- !app_assoc.
    split; [lia|done].
Qed.

(** X7: every script goes to a temporary file of its own and fdisk is
    run on exactly those files: over any sequence of [create] calls on a
    fresh builder, the files written are the first k files handed out by
    the temporary-file provider, k the number of scripts, in order; the
    fdisk invocations are one per file, in the same order, each piping
    that file into fdisk on the builder's own device; and when the
    provider never repeats a name, no script file is written twice. *)
Theorem each_script_has_its_own_file_and_fdisk_run :
  forall device start ext (rs : list request),
    let t := trace (world (create_all rs (fresh device start ext)).2) in
    script_files t =
      Temporary_name <$> seq 0 (length (written t)) /\
    fdisk_commands t = fdisk_argv device <$> script_files t /\
    tmp_files (world (create_all rs (fresh device start ext)).2) =
      length (written t) /\
    ((forall i j, Temporary_name i = Temporary_name j -> i = j) ->
     NoDup (script_files t)).
Proof.
  intros device start ext rs t.
  destruct (create_all_files rs (fresh device start ext)) as (H1 & H2 & H3).
  assert (length (written t) =
          length (created_all (self (fresh device start ext)) rs)) as Hlen
    by (subst t; by rewrite create_all_written).
  fold t in H2, H3. rewrite Hlen, H1, H2, H3. simpl.
  repeat split.
  intros Hinj. apply NoDup_fmap_2; [exact Hinj|apply NoDup_seq].
Qed.

(** ** How far the flag application gets *)

(** X8: the flags are applied in the caller's order, the type name
    first, all to the slot just created, and the application stops at the
    first failure: a [create] call that returns has called [set_flag]
    once for the type name and once for every flag, in order; a call that
    raises has called it for the names up to the one that raised and for
    none after it. *)
Theorem flags_applied_in_order_until_first_failure :
  forall name mbsize ty flags (m : machine),
    let r := create name mbsize ty flags m in
    let slot := partition_id (self r.2) in
    match r.1 with
    | Ok _ =>
        set_flag_calls (world r.2) =
          set_flag_calls (world m) ++ map (pair slot) (ty :: flags)
    | Raise _ =>
        exists l1 f l2,
          ty :: flags = l1 ++ f :: l2 /\
          set_flag_calls (world r.2) =
            set_flag_calls (world m) ++ map (pair slot) (l1 ++ [f])
    end.
Proof.
  intros name mbsize ty flags m r slot. subst r slot.
  rewrite create_run.
  destruct (route (self m));
    rewrite ?_create_primary_run, ?_create_logical_run;
    match goal with
    | |- context [_set_all_flags ty flags ?m1] =>
        pose proof (_set_all_flags_calls ty flags m1) as H;
        destruct (_set_all_flags_effect ty flags m1) as [Hs _];
        cbn zeta in H, Hs; rewrite Hs
    end; exact H.
Qed.

Lemma for_each_set_flag_partial l1 f l2 m :
  flag_commands_succeed ->
  Forall (fun g => is_Some (flag_map (self m) !! g)) l1 ->
  flag_map (self m) !! f = None ->
  let r :=
    for_each (l1 ++ f :: l2) (fun flag_name =>
      p ← get_self; set_flag (partition_id p) flag_name) m in
  r.1 = Raise (unknown_flag f) /\
  set_flag_calls (world r.2) =
    set_flag_calls (world m) ++
    map (pair (partition_id (self m))) (l1 ++ [f]) /\
  flag_commands (trace (world r.2)) =
    flag_commands (trace (world m)) ++
    flat_map
      (applied (disk_device (self m)) (partition_id (self m))
         (flag_map (self m)))
      l1.
Proof.
  intros Hgood. revert m. induction l1 as [|g l1 IH]; intros m Hl1 Hf; simpl.
  - step_m. rewrite (set_flag_unknown _ _ _ Hf). simpl.
    by rewrite app_nil_r.
  - apply Forall_cons in Hl1 as [[code Hg] Hl1]. step_m.
    destruct (set_flag_good (partition_id (self m)) g m Hgood)
      as (Ho & Hs & Hc & Hfc).
    rewrite Hg in Ho.
    destruct (set_flag (partition_id (self m)) g m) as [o m1].
    simpl in *. subst o.
    destruct (IH m1) as (Ho' & Hc' & Hfc'); [by rewrite Hs..|].
    simpl in *. rewrite Hs in *.
    by rewrite Ho', Hc', Hc, Hfc', Hfc, <- !app_assoc.
Qed.

Lemma _set_all_flags_partial ty flags l1 f l2 m :
  flag_commands_succeed ->
  ty :: flags = l1 ++ f :: l2 ->
  Forall (fun g => is_Some (flag_map (self m) !! g)) l1 ->
  flag_map (self m) !! f = None ->
  let r := _set_all_flags ty flags m in
  r.1 = Raise (unknown_flag f) /\
  set_flag_calls (world r.2) =
    set_flag_calls (world m) ++
    map (pair (partition_id (self m))) (l1 ++ [f]) /\
  flag_commands (trace (world r.2)) =
    flag_commands (trace (world m)) ++
    flat_map
      (applied (disk_device (self m)) (partition_id (self m))
         (flag_map (self m)))
      l1.
Proof.
  intros Hgood Hsplit Hl1 Hf.
  pose proof (for_each_set_flag_partial l1 f l2 m Hgood Hl1 Hf) as H.
  rewrite <- Hsplit in H.
  unfold _set_all_flags. step_m.
  replace (if bool_decide (flags <> []) then _ else mret tt)
    with (for_each flags (fun flag_name =>
            p ← get_self; set_flag (partition_id p) flag_name)).
  2:{ case_bool_decide as Hfl; [done|]. by destruct flags. }
  exact H.
Qed.

Lemma scripted_then_flags_partial m p' msg s ty flags l1 f l2 :
  flag_commands_succeed ->
  disk_device p' = disk_device (self m) ->
  flag_map p' = flag_map (self m) ->
  ty :: flags = l1 ++ f :: l2 ->
  Forall (fun g => is_Some (flag_map (self m) !! g)) l1 ->
  flag_map (self m) !! f = None ->
  let r := _set_all_flags ty flags (scripted m p' msg s) in
  r.1 = Raise (unknown_flag f) /\
  set_flag_calls (world r.2) =
    set_flag_calls (world m) ++ map (pair (partition_id p')) (l1 ++ [f]) /\
  flag_commands (trace (world r.2)) =
    flag_commands (trace (world m)) ++
    flat_map (applied (disk_device (self m)) (partition_id p')
                (flag_map (self m))) l1.
Proof.
  intros Hgood Hdev Hfm Hsplit Hl1 Hf r.
  destruct (_set_all_flags_partial ty flags l1 f l2 (scripted m p' msg s)
              Hgood Hsplit) as (Ho & Hc & Hfc).
  { simpl. by rewrite Hfm. }
  { simpl. by rewrite Hfm. }
  fold r in Ho, Hc, Hfc.
  cbn [scripted self world trace set_flag_calls] in Hc, Hfc.
  rewrite Hdev, Hfm in Hfc.
  repeat split; [done..|].
  by rewrite Hfc, flag_commands_app, fdisk_events_flag, app_nil_r.
Qed.

(** X9: flags are not applied atomically. When the flag-setting commands
    succeed and the first unknown name [f] among the type name and the
    flags comes after the known names [l1], [create] raises the
    unknown-flag error for [f], having run the commands of all of [l1]
    on the new slot: these stay applied. *)
Theorem flags_before_unknown_flag_stay_applied :
  flag_commands_succeed ->
  forall name mbsize ty flags (m : machine) l1 f l2,
    ty :: flags = l1 ++ f :: l2 ->
    Forall (fun g => is_Some (flag_map (self m) !! g)) l1 ->
    flag_map (self m) !! f = None ->
    let r := create name mbsize ty flags m in
    let slot := partition_id (after_create (self m)) in
    r.1 = Raise (KiwiPartitionerMsDosFlagError
                   ("Unknown partition flag " +:+ f)) /\
    partition_id (self r.2) = slot /\
    set_flag_calls (world r.2) =
      set_flag_calls (world m) ++ map (pair slot) (l1 ++ [f]) /\
    flag_commands (trace (world r.2)) =
      flag_commands (trace (world m)) ++
      flat_map (applied (disk_device (self m)) slot (flag_map (self m))) l1.
Proof.
  intros Hgood name mbsize ty flags m l1 f l2 Hsplit Hl1 Hf r slot.
  assert (partition_id (self r.2) = slot) as Hslot.
  { subst r slot.
    by rewrite (proj1 (create_effect name mbsize ty flags m)). }
  split; [|split; [exact Hslot|]]; subst r slot; rewrite create_run;
    unfold after_create; destruct (route (self m)) eqn:R.
  - rewrite _create_primary_run.
    by apply (scripted_then_flags_partial m _ _ _ ty flags l1 f l2).
  - rewrite _create_logical_run. set (m0 := scripted m _ _ _).
    apply (scripted_then_flags_partial m0 (bump (self m0))
             _ _ ty flags l1 f l2 Hgood eq_refl eq_refl Hsplit Hl1 Hf).
  - rewrite _create_logical_run.
    by apply (scripted_then_flags_partial m _ _ _ ty flags l1 f l2).
  - rewrite _create_primary_run.
    by apply (scripted_then_flags_partial m _ _ _ ty flags l1 f l2).
  - rewrite _create_logical_run. set (m0 := scripted m _ _ _).
    destruct (scripted_then_flags_partial m0 (bump (self m0))
                (logical_msg name (partition_id (self m0) + 1) mbsize)
                (FdiskScript Logical (partition_id (self m0) + 1) ""
                   (size_token mbsize))
                ty flags l1 f l2 Hgood eq_refl eq_refl Hsplit Hl1 Hf)
      as (_ & Hc & Hfc).
    split; [exact Hc|]. rewrite Hfc. f_equal. subst m0. simpl.
    by rewrite flag_commands_app, fdisk_events_flag, app_nil_r.
  - rewrite _create_logical_run.
    by apply (scripted_then_flags_partial m _ _ _ ty flags l1 f l2).
Qed.

(** ** What the commands are run on *)

Lemma after_all_id_le rs p : partition_id p <= partition_id (after_all p rs).
Proof. rewrite (proj2 (created_all_slots rs p)). lia. Qed.

Lemma create_all_flags_address rs m :
  let m' := (create_all rs m).2 in
  exists new,
    flag_commands (trace (world m')) =
      flag_commands (trace (world m)) ++ new /\
    Forall (fun argv =>
              exists slot,
                partition_id (self m) < slot <= partition_id (self m') /\
                addresses (disk_device (self m)) slot argv) new.
Proof.
  revert m. induction rs as [|r rs IH]; intros m.
  - exists []. split; [by rewrite app_nil_r|constructor].
  - cbn zeta. rewrite create_all_cons.
    destruct (create_effect (rq_name r) (rq_mbsize r) (rq_type_name r)
                (rq_flags r) m) as [Hs [evs k [Ht _] _ _ Ha _]].
    fold (create_request r m) in Hs, Ht.
    destruct (IH (create_request r m).2) as (new & Hnew & Hall).
    pose proof (after_all_id_le rs (self (create_request r m).2)) as Hle.
    rewrite <- create_all_self in Hle.
    rewrite Hs in Hall, Hle. rewrite after_create_device in Hall.
    assert (partition_id (self m) < partition_id (after_create (self m)))
      as Hlt by (rewrite after_create_id; destruct (route (self m)); lia).
    exists (flag_commands evs ++ new). split.
    + by rewrite Hnew, Ht, flag_commands_app, <- app_assoc.
    + apply Forall_app. split.
      * eapply Forall_impl; [exact Ha|]. intros argv Haddr.
        exists (partition_id (after_create (self m))). split; [lia|done].
      * eapply Forall_impl; [exact Hall|].
        intros argv (slot & Hslot & Haddr). exists slot. split; [lia|done].
Qed.

Lemma commands_split t argv :
  argv ∈ commands t -> argv ∈ fdisk_commands t \/ argv ∈ flag_commands t.
Proof.
  intros Hin. unfold fdisk_commands, flag_commands.
  destruct (is_fdisk_call argv) eqn:E; [left|right];
    by apply list_elem_of_filter.
Qed.

(** X10: a builder runs commands on its own device only, and sets flags
    only on partitions it has created: over any sequence of [create]
    calls on a fresh builder, every command run is either the fdisk
    invocation on the builder's device with one of the script files, or
    a parted or sfdisk command on the builder's device for a slot between
    1 and the counter. *)
Theorem commands_stay_on_own_device_and_slots :
  forall device start ext (rs : list request),
    let m' := (create_all rs (fresh device start ext)).2 in
    Forall
      (fun argv =>
         (exists path,
            path ∈ script_files (trace (world m')) /\
            argv = fdisk_argv device path) \/
         (exists slot,
            1 <= slot <= partition_id (self m') /\
            addresses device slot argv))
      (commands (trace (world m'))).
Proof.
  intros device start ext rs m'. apply Forall_forall. intros argv Hin.
  apply commands_split in Hin as [Hin|Hin].
  - left.
    destruct (create_all_files rs (fresh device start ext)) as (_ & H2 & H3).
    fold m' in H2, H3. simpl in H2, H3. rewrite H3 in Hin.
    apply list_elem_of_fmap in Hin as (path & -> & Hpath).
    exists path. split; [by rewrite H2|done].
  - right.
    destruct (create_all_flags_address rs (fresh device start ext))
      as (new & Hnew & Hall).
    fold m' in Hnew, Hall. simpl in Hnew, Hall. rewrite Hnew in Hin.
    rewrite Forall_forall in Hall.
    destruct (Hall argv Hin) as (slot & Hslot & Haddr).
    exists slot. split; [lia|done].
Qed.

(** ** The layout mode matters from the fourth request on *)

Lemma set_flag_relayout b pid f m :
  set_flag pid f (relayout b m) =
  ((set_flag pid f m).1, relayout b (set_flag pid f m).2).
Proof.
  destruct (flag_map (self m) !! f) as [code|] eqn:Hf.
  - destruct (truthy code) eqn:Hc.
    + rewrite (set_flag_supported pid f code m Hf Hc),
        (set_flag_supported pid f code (relayout b m) Hf Hc).
      reflexivity.
    + rewrite (set_flag_unsupported pid f code m Hf Hc),
        (set_flag_unsupported pid f code (relayout b m) Hf Hc).
      reflexivity.
  - rewrite (set_flag_unknown pid f m Hf),
      (set_flag_unknown pid f (relayout b m) Hf).
    reflexivity.
Qed.

Lemma for_each_set_flag_relayout b flags m :
  let body := fun flag_name : string =>
    p ← get_self; set_flag (partition_id p) flag_name in
  for_each flags body (relayout b m) =
  ((for_each flags body m).1, relayout b (for_each flags body m).2).
Proof.
  revert m. induction flags as [|f flags IH]; intros m; simpl; [done|].
  step_m. change (partition_id (self (relayout b m)))
    with (partition_id (self m)).
  rewrite set_flag_relayout.
  destruct (set_flag (partition_id (self m)) f m) as [[[]|e] m1];
    simpl; [apply IH|done].
Qed.

Lemma _set_all_flags_relayout b ty flags m :
  _set_all_flags ty flags (relayout b m) =
  ((_set_all_flags ty flags m).1, relayout b (_set_all_flags ty flags m).2).
Proof.
  unfold _set_all_flags. step_m.
  replace (if bool_decide (flags <> []) then _ else mret tt)
    with (for_each flags (fun flag_name =>
            p ← get_self; set_flag (partition_id p) flag_name)).
  2:{ case_bool_decide as Hfl; [done|]. by destruct flags. }
  exact (for_each_set_flag_relayout b (ty :: flags) m).
Qed.

Lemma _create_primary_relayout b name mbsize ty flags m :
  _create_primary name mbsize ty flags (relayout b m) =
  ((_create_primary name mbsize ty flags m).1,
   relayout b (_create_primary name mbsize ty flags m).2).
Proof.
  rewrite !_create_primary_run.
  exact (_set_all_flags_relayout b ty flags
           (scripted m (bump_primary (self m))
              (primary_msg name (partition_id (self m) + 1) mbsize)
              (FdiskScript Primary (partition_id (self m) + 1)
                 (start_token (start_sector (bump_primary (self m))))
                 (size_token mbsize)))).
Qed.

Lemma create_all_relayout rs m :
  extended_layout (self m) = false ->
  partition_id (self m) + Z.of_nat (length rs) <= 3 ->
  create_all rs (relayout true m) =
  ((create_all rs m).1, relayout true (create_all rs m).2).
Proof.
  revert m. induction rs as [|r rs IH]; intros m Hs Hid; [done|].
  cbn [create_all length] in *.
  assert (create_request r (relayout true m) =
          ((create_request r m).1, relayout true (create_request r m).2))
    as Hstep.
  { unfold create_request. rewrite !create_run.
    rewrite (route_simple (self m) Hs).
    rewrite (route_primary (self (relayout true m)) eq_refl)
      by (simpl; lia).
    apply _create_primary_relayout. }
  rewrite Hstep.
  pose proof (create_request_self r m) as Hself.
  destruct (create_request r m) as [o m1]. simpl in *.
  rewrite IH.
  - by destruct (create_all rs m1).
  - by rewrite Hself, after_create_layout.
  - rewrite Hself, after_create_id, (route_simple _ Hs). lia.
Qed.

(** X11: for its first three requests the extended layout is the simple
    layout: a sequence of at most three [create] calls on a fresh builder
    has the same outcomes and leaves the same world (log lines, scripts,
    commands) in either mode, and the same object but for the mode. *)
Theorem extended_layout_is_simple_up_to_three_requests :
  forall device start (rs : list request),
    (length rs <= 3)%nat ->
    let re := create_all rs (fresh device start true) in
    let rs' := create_all rs (fresh device start false) in
    re.1 = rs'.1 /\
    world re.2 = world rs'.2 /\
    partition_id (self re.2) = partition_id (self rs'.2) /\
    start_sector (self re.2) = start_sector (self rs'.2).
Proof.
  intros device start rs Hlen re rs'. subst re rs'.
  change (fresh device start true)
    with (relayout true (fresh device start false)).
  rewrite create_all_relayout; [done|done|simpl; lia].
Qed.

End Partitioner.

(** ** Concrete runs *)

(** The text of the three kinds of script. *)
Example script_text_primary :
  script_text (FdiskScript Primary 1 "2048" "+50M") =
  "n
p
1
2048
+50M
w
q
".
Proof. reflexivity. Qed.

Example script_text_extended :
  script_text (FdiskScript Extended 4 "" "") =
  "n
e
4


w
q
".
Proof. reflexivity. Qed.

Example script_text_logical :
  script_text (FdiskScript Logical 5 "" (size_token (PStr "all_free"))) =
  "n
5


w
q
".
Proof. reflexivity. Qed.

Lemma always_succeeds_good : flag_commands_succeed always_succeeds.
Proof. intros history argv _. reflexivity. Defined.

Lemma fdisk_always_fails_good : flag_commands_succeed fdisk_always_fails.
Proof.
  intros history argv H. unfold fdisk_always_fails. rewrite H. reflexivity.
Defined.

(** C1 as stated fails: with every command succeeding, the three requests
    of the end-to-end scenario on a fresh builder in extended layout do
    not produce the slots primary 1, primary 2, extended 3, logical 4,
    and no boot command is addressed to slot 4. *)
Lemma end_to_end_third_request_is_not_compound :
  ~ (kind_slot <$>
       written
         (trace (world
            (create_all always_succeeds tmp_path end_to_end
               (fresh "/dev/sda" (PInt 2048) true)).2)) =
     [(Primary, 1); (Primary, 2); (Extended, 3); (Logical, 4)] /\
     parted_argv "/dev/sda" 4 ∈
       commands
         (trace (world
            (create_all always_succeeds tmp_path end_to_end
               (fresh "/dev/sda" (PInt 2048) true)).2))).
Proof. intros [H _]. vm_compute in H. discriminate H. Qed.

(** What the scenario does produce. *)
Example end_to_end_slots :
  kind_slot <$>
    written
      (trace (world
         (create_all always_succeeds tmp_path end_to_end
            (fresh "/dev/sda" (PInt 2048) true)).2)) =
  [(Primary, 1); (Primary, 2); (Primary, 3)].
Proof. vm_compute. reflexivity. Qed.

Example end_to_end_commands :
  commands
    (trace (world
       (create_all always_succeeds tmp_path end_to_end
          (fresh "/dev/sda" (PInt 2048) true)).2)) =
  [fdisk_argv "/dev/sda" "/tmp/kiwi_fdisk_0";
   sfdisk_argv "/dev/sda" 1 (PStr "83");
   fdisk_argv "/dev/sda" "/tmp/kiwi_fdisk_1";
   sfdisk_argv "/dev/sda" 2 (PStr "82");
   fdisk_argv "/dev/sda" "/tmp/kiwi_fdisk_2";
   sfdisk_argv "/dev/sda" 3 (PStr "83");
   parted_argv "/dev/sda" 3].
Proof. vm_compute. reflexivity. Qed.

(** ** The theorems at concrete inputs *)

Lemma set_flag_unknown_flag_witness :
  flag_map (self (fresh "/dev/sda" PNone false)) !! "t.bogus" = None /\
  (set_flag always_fails 1 "t.bogus" (fresh "/dev/sda" PNone false)).1 =
    Raise (KiwiPartitionerMsDosFlagError "Unknown partition flag t.bogus") /\
  trace (world (set_flag always_fails 1 "t.bogus"
                  (fresh "/dev/sda" PNone false)).2) = [].
Proof.
  assert (flag_map (self (fresh "/dev/sda" PNone false)) !! "t.bogus" = None)
    as H by (vm_compute; reflexivity).
  split; [exact H|].
  destruct (set_flag_unknown_flag_raises_without_call always_fails 1
              "t.bogus" (fresh "/dev/sda" PNone false) H) as (H1 & H2 & _).
  split; [exact H1|exact H2].
Defined.

Lemma set_flag_unsupported_flag_witness :
  flag_map (self (fresh "/dev/sda" PNone false)) !! "t.efi" = Some PNone /\
  (set_flag always_fails 2 "t.efi" (fresh "/dev/sda" PNone false)).1 =
    Ok tt /\
  trace (world (set_flag always_fails 2 "t.efi"
                  (fresh "/dev/sda" PNone false)).2) =
    [ELog WARNING "Flag t.efi ignored on msdos"].
Proof.
  destruct (set_flag_unsupported_flag_only_warns always_fails) as [Hmap Hrun].
  assert (flag_map (self (fresh "/dev/sda" PNone false)) !! "t.efi" =
          Some PNone) as H.
  { apply (Hmap (PartitionerBase.init "/dev/sda" PNone false) "t.efi").
    left. reflexivity. }
  split; [exact H|].
  destruct (Hrun 2 "t.efi" (fresh "/dev/sda" PNone false) H)
    as (H1 & H2 & _).
  split; [exact H1|exact H2].
Defined.

Lemma fdisk_failure_swallowed_witness :
  (* fdisk fails on every call, the flag commands succeed: create returns *)
  flag_commands_succeed fdisk_always_fails /\
  (create fdisk_always_fails tmp_path "root" (PStr "all_free") "t.linux"
     ["f.active"] (fresh "/dev/sda" (PInt 2048) true)).1 = Ok tt /\
  (_call_fdisk always_fails "/tmp/kiwi_fdisk_0"
     (fresh "/dev/sda" (PInt 2048) true)).1 = Ok tt /\
  trace (world (_call_fdisk always_fails "/tmp/kiwi_fdisk_0"
                  (fresh "/dev/sda" (PInt 2048) true)).2) =
    [ERun (fdisk_argv "/dev/sda" "/tmp/kiwi_fdisk_0") (Some command_error);
     ELog DEBUG "potential fdisk errors were ignored"] /\
  (* every command fails: the flag commands' exception is the outcome *)
  (set_flag always_fails 1 "f.active"
     (fresh "/dev/sda" (PInt 2048) true)).1 = Raise command_error /\
  (set_flag always_fails 1 "t.swap"
     (fresh "/dev/sda" (PInt 2048) true)).1 = Raise command_error /\
  (create always_fails tmp_path "swap" (PInt 2048) "t.swap" []
     (fresh "/dev/sda" (PInt 2048) true)).1 = Raise command_error /\
  (* only parted fails, on the secondary flag: create raises its exception *)
  ERun (parted_argv "/dev/sda" 1) (Some command_error) ∈
    trace (world
      (create parted_fails tmp_path "root" (PStr "all_free") "t.linux"
         ["f.active"] (fresh "/dev/sda" (PInt 2048) true)).2) /\
  (create parted_fails tmp_path "root" (PStr "all_free") "t.linux"
     ["f.active"] (fresh "/dev/sda" (PInt 2048) true)).1 =
    Raise command_error /\
  (create parted_fails tmp_path "home" (PInt 100) "t.lvm"
     ["t.efi"; "f.active"; "t.raid"] (fresh "/dev/sda" PNone false)).1 =
    Raise command_error /\
  (* only sfdisk fails, on a secondary flag: create raises its exception *)
  (create sfdisk_fails tmp_path "home" (PInt 100) "t.efi"
     ["f.active"; "t.raid"] (fresh "/dev/sda" PNone false)).1 =
    Raise command_error.
Proof.
  destruct (fdisk_failure_swallowed_flag_failure_propagates
              sfdisk_fails tmp_path)
    as (_ & _ & _ & _ & _ & _ & _ & _ & _ & Htype).
  destruct (fdisk_failure_swallowed_flag_failure_propagates
              fdisk_always_fails tmp_path) as (_ & _ & Hcreate & _).
  destruct (fdisk_failure_swallowed_flag_failure_propagates
              always_fails tmp_path)
    as (Hcall & Hlog & _ & _ & Hparted & Hsfdisk & Hraise & _).
  destruct (fdisk_failure_swallowed_flag_failure_propagates
              parted_fails tmp_path)
    as (_ & _ & _ & _ & _ & _ & _ & Hany & Hboot & _).
  split; [exact fdisk_always_fails_good|].
  split.
  { apply (Hcreate fdisk_always_fails_good).
    vm_compute. reflexivity. }
  split; [apply Hcall|].
  split.
  { apply (Hlog "/tmp/kiwi_fdisk_0" (fresh "/dev/sda" (PInt 2048) true)
             command_error).
    reflexivity. }
  split.
  { apply (Hparted 1 (PBool true) (fresh "/dev/sda" (PInt 2048) true)
             command_error); [vm_compute; reflexivity|reflexivity..]. }
  split.
  { apply (Hsfdisk 1 "t.swap" (PStr "82")
             (fresh "/dev/sda" (PInt 2048) true) command_error);
      [discriminate|vm_compute; reflexivity|reflexivity..]. }
  split.
  { apply (Hraise command_error (fun _ _ _ => eq_refl) "swap" (PInt 2048)
             "t.swap" [] (PStr "82") (fresh "/dev/sda" (PInt 2048) true));
      [vm_compute; reflexivity|reflexivity]. }
  assert (ERun (parted_argv "/dev/sda" 1) (Some command_error) ∈
            trace (world
              (create parted_fails tmp_path "root" (PStr "all_free")
                 "t.linux" ["f.active"]
                 (fresh "/dev/sda" (PInt 2048) true)).2)) as Hin.
  { apply list_elem_of_lookup. exists 4%nat. vm_compute. reflexivity. }
  split; [exact Hin|].
  split.
  { destruct (Hany "root" (PStr "all_free") "t.linux" ["f.active"]
                (fresh "/dev/sda" (PInt 2048) true)) as (evs & Ht & H).
    apply (H (parted_argv "/dev/sda" 1) command_error eq_refl).
    change (trace (world (fresh "/dev/sda" (PInt 2048) true)) ++ evs)
      with evs in Ht.
    rewrite <- Ht. exact Hin. }
  split.
  { apply (Hboot command_error (fun _ _ _ => eq_refl)
             (fun _ _ _ _ => eq_refl) "home" (PInt 100) "t.lvm"
             ["t.efi"; "f.active"; "t.raid"] (PBool true)
             (fresh "/dev/sda" PNone false)).
    - vm_compute. reflexivity.
    - vm_compute. reflexivity.
    - reflexivity.
    - apply list_elem_of_lookup. exists 2%nat. reflexivity. }
  apply (Htype command_error (fun _ _ _ _ => eq_refl)
           (fun _ _ _ => eq_refl) "home" (PInt 100) "t.efi"
           ["f.active"; "t.raid"] "t.raid" (PStr "fd")
           (fresh "/dev/sda" PNone false)).
  - vm_compute. reflexivity.
  - discriminate.
  - vm_compute. reflexivity.
  - reflexivity.
  - apply list_elem_of_lookup. exists 2%nat. reflexivity.
Defined.

Lemma size_token_witness :
  exists s s' e,
    written
      (trace (world
         (_create_primary always_succeeds tmp_path "boot" (PInt 50)
            "t.linux" [] (fresh "/dev/sda" (PInt 2048) true)).2)) = [s] /\
    written
      (trace (world
         (_create_logical always_succeeds tmp_path "root" (PStr "all_free")
            "t.linux" [] (fresh "/dev/sda" (PInt 2048) true)).2)) = [s'] /\
    written
      (trace (world
         (_create_extended always_succeeds tmp_path "root"
            (fresh "/dev/sda" (PInt 2048) true)).2)) = [e] /\
    fs_size s = "+50M" /\ fs_size s' = "" /\ fs_size e = "".
Proof.
  destruct (size_token_empty_iff_all_free_or_extended always_succeeds
              tmp_path) as (_ & Hlog & Hext & Hpos).
  destruct (Hpos 50%positive "boot" "t.linux" []
              (fresh "/dev/sda" (PInt 2048) true)) as (s & _ & Hs & _ & Hz & _).
  destruct (Hlog "root" (PStr "all_free") "t.linux" []
              (fresh "/dev/sda" (PInt 2048) true)) as (s' & Hs' & _ & Hz').
  destruct (Hext "root" (fresh "/dev/sda" (PInt 2048) true))
    as (e & He & _ & Hze).
  exists s, s', e.
  split; [exact Hs|]. split; [exact Hs'|]. split; [exact He|].
  split; [exact Hz|]. split; [apply Hz'; reflexivity|exact Hze].
Defined.

Lemma simple_mode_counter_witness :
  partition_id
    (self (create_all always_succeeds tmp_path end_to_end
             (fresh "/dev/sda" (PInt 2048) false)).2) = 3 /\
  kind_slot <$>
    written
      (trace (world
         (create_all always_succeeds tmp_path end_to_end
            (fresh "/dev/sda" (PInt 2048) false)).2)) =
  [(Primary, 1); (Primary, 2); (Primary, 3)].
Proof.
  destruct (simple_mode_all_primary_counter_counts_calls always_succeeds
              tmp_path) as [Hseq _].
  destruct (Hseq "/dev/sda" (PInt 2048) end_to_end) as (_ & Hid & _ & Hk).
  split; [exact Hid|exact Hk].
Defined.

Lemma extended_container_slot_witness :
  (4 <= length (end_to_end ++ end_to_end))%nat /\
  kind_slot <$>
    written
      (trace (world
         (create_all fdisk_always_fails tmp_path (end_to_end ++ end_to_end)
            (fresh "/dev/sda" (PInt 2048) true)).2)) =
  [(Primary, 1); (Primary, 2); (Primary, 3); (Extended, 4);
   (Logical, 5); (Logical, 6); (Logical, 7)].
Proof.
  assert (4 <= length (end_to_end ++ end_to_end))%nat as H
    by (simpl; lia).
  split; [exact H|].
  exact (proj1 (extended_container_at_slot_4_logicals_from_5
                  fdisk_always_fails tmp_path "/dev/sda" (PInt 2048)
                  (end_to_end ++ end_to_end) H)).
Defined.

Lemma start_sector_witness :
  (exists rest,
     written
       (trace (world
          (create_all always_succeeds tmp_path end_to_end
             (fresh "/dev/sda" (PInt 2048) true)).2)) =
     FdiskScript Primary 1 "2048" "+50M" :: rest /\
     Forall (fun s => fs_start s = "") rest) /\
  start_sector
    (self (create_all always_succeeds tmp_path end_to_end
             (fresh "/dev/sda" (PInt 2048) true)).2) = PNone.
Proof.
  exact (start_sector_only_for_first_primary always_succeeds tmp_path
           "/dev/sda" (PInt 2048) true
           (Request "boot" (PInt 50) "t.linux" [])
           [Request "swap" (PInt 2048) "t.swap" [];
            Request "root" (PStr "all_free") "t.linux" ["f.active"]]).
Defined.

Lemma extended_container_no_flag_witness :
  set_flag_calls
    (world
       (create_all always_succeeds tmp_path (end_to_end ++ end_to_end)
          (fresh "/dev/sda" (PInt 2048) true)).2) =
  [(1, "t.linux"); (2, "t.swap"); (3, "t.linux"); (3, "f.active");
   (5, "t.linux"); (6, "t.swap"); (7, "t.linux"); (7, "f.active")] /\
  Forall (fun c => c.1 <> 4)
    (set_flag_calls
       (world
          (create_all always_succeeds tmp_path (end_to_end ++ end_to_end)
             (fresh "/dev/sda" (PInt 2048) true)).2)) /\
  (* the call at counter 3, with known names and succeeding commands *)
  flag_commands_succeed always_succeeds /\
  first_unknown msdos_flag_map ["t.linux"; "f.active"] = None /\
  set_flag_calls
    (world
       (create always_succeeds tmp_path "root" (PStr "all_free") "t.linux"
          ["f.active"]
          (mkMachine (mkPartitioner "/dev/sda" 3 PNone true msdos_flag_map)
             (mkWorld [] 0%nat []))).2) =
  [(5, "t.linux"); (5, "f.active")] /\
  flag_commands
    (trace (world
       (create always_succeeds tmp_path "root" (PStr "all_free") "t.linux"
          ["f.active"]
          (mkMachine (mkPartitioner "/dev/sda" 3 PNone true msdos_flag_map)
             (mkWorld [] 0%nat []))).2)) =
  [sfdisk_argv "/dev/sda" 5 (PStr "83"); parted_argv "/dev/sda" 5].
Proof.
  split; [vm_compute; reflexivity|].
  destruct (extended_container_receives_no_flag always_succeeds tmp_path)
    as (_ & Hall & _ & Hgood).
  split;
    [exact (proj1 (Hall "/dev/sda" (PInt 2048) (end_to_end ++ end_to_end)))|].
  split; [exact always_succeeds_good|].
  assert (first_unknown msdos_flag_map ["t.linux"; "f.active"] = None)
    as Hknown by (vm_compute; reflexivity).
  split; [exact Hknown|].
  destruct (Hgood always_succeeds_good "root" (PStr "all_free") "t.linux"
              ["f.active"] "/dev/sda" PNone msdos_flag_map
              (mkWorld [] 0%nat []) Hknown) as (_ & Hc & Hf).
  split; [exact Hc|exact Hf].
Defined.

Lemma create_flag_error_witness :
  (* unknown type name *)
  flag_map (self (fresh "/dev/sda" PNone false)) !! "t.bogus" = None /\
  (create always_succeeds tmp_path "boot" (PInt 50) "t.bogus" []
     (fresh "/dev/sda" PNone false)).1 =
    Raise (KiwiPartitionerMsDosFlagError "Unknown partition flag t.bogus") /\
  partition_id
    (self (create always_succeeds tmp_path "boot" (PInt 50) "t.bogus" []
             (fresh "/dev/sda" PNone false)).2) = 1 /\
  (* unknown secondary flag *)
  (create always_succeeds tmp_path "boot" (PInt 50) "t.linux" ["f.bogus"]
     (fresh "/dev/sda" PNone false)).1 =
    Raise (KiwiPartitionerMsDosFlagError "Unknown partition flag f.bogus") /\
  partition_id
    (self (create always_succeeds tmp_path "boot" (PInt 50) "t.linux"
             ["f.bogus"] (fresh "/dev/sda" PNone false)).2) = 1.
Proof.
  destruct (create_keeps_counter_and_script_on_flag_error always_succeeds
              tmp_path) as (Hkeep & Htype & Hflag).
  assert (flag_map (self (fresh "/dev/sda" PNone false)) !! "t.bogus" = None)
    as H by (vm_compute; reflexivity).
  split; [exact H|].
  split; [exact (Htype "boot" (PInt 50) "t.bogus" [] _ H)|].
  split;
    [exact (proj1 (Hkeep "boot" (PInt 50) "t.bogus" []
                     (fresh "/dev/sda" PNone false)))|].
  split.
  - apply (Hflag always_succeeds_good "boot" (PInt 50) "t.linux" ["f.bogus"]
             (fresh "/dev/sda" PNone false) "f.bogus").
    vm_compute. reflexivity.
  - exact (proj1 (Hkeep "boot" (PInt 50) "t.linux" ["f.bogus"]
                    (fresh "/dev/sda" PNone false))).
Defined.

Lemma compound_step_witness :
  flag_commands_succeed always_succeeds /\
  written
    (trace (world
       (create_all always_succeeds tmp_path end_to_end
          (fresh "/dev/sda" (PInt 2048) true)).2)) =
  [FdiskScript Primary 1 "2048" "+50M";
   FdiskScript Primary 2 "" "+2048M";
   FdiskScript Primary 3 "" ""] /\
  flag_commands
    (trace (world
       (create_all always_succeeds tmp_path end_to_end
          (fresh "/dev/sda" (PInt 2048) true)).2)) =
  [sfdisk_argv "/dev/sda" 1 (PStr "83");
   sfdisk_argv "/dev/sda" 2 (PStr "82");
   sfdisk_argv "/dev/sda" 3 (PStr "83");
   parted_argv "/dev/sda" 3] /\
  (* a fourth request, with a type and a flag *)
  first_unknown msdos_flag_map ["t.lvm"; "f.active"] = None /\
  set_flag_calls
    (world
       (create_all always_succeeds tmp_path
          (end_to_end ++ [Request "home" (PInt 100) "t.lvm" ["f.active"]])
          (fresh "/dev/sda" (PInt 2048) true)).2) =
  [(1, "t.linux"); (2, "t.swap"); (3, "t.linux"); (3, "f.active");
   (5, "t.lvm"); (5, "f.active")] /\
  flag_commands
    (trace (world
       (create_all always_succeeds tmp_path
          (end_to_end ++ [Request "home" (PInt 100) "t.lvm" ["f.active"]])
          (fresh "/dev/sda" (PInt 2048) true)).2)) =
  [sfdisk_argv "/dev/sda" 1 (PStr "83");
   sfdisk_argv "/dev/sda" 2 (PStr "82");
   sfdisk_argv "/dev/sda" 3 (PStr "83");
   parted_argv "/dev/sda" 3;
   sfdisk_argv "/dev/sda" 5 (PStr "8e");
   parted_argv "/dev/sda" 5].
Proof.
  destruct (compound_step_at_counter_3_scenario_all_primary always_succeeds
              tmp_path) as (_ & Hscen & _ & _ & _ & Hfourth).
  destruct (Hscen always_succeeds_good "/dev/sda" (PInt 2048))
    as (_ & _ & Hw & _ & Hf).
  split; [exact always_succeeds_good|].
  split; [exact Hw|]. split; [exact Hf|].
  assert (first_unknown msdos_flag_map ["t.lvm"; "f.active"] = None)
    as Hknown by (vm_compute; reflexivity).
  split; [exact Hknown|].
  destruct (Hfourth always_succeeds_good "/dev/sda" (PInt 2048)
              (Request "home" (PInt 100) "t.lvm" ["f.active"]) Hknown)
    as (_ & _ & Hc4 & Hf4).
  split; [exact Hc4|exact Hf4].
Defined.

(** ** The further properties at concrete inputs *)

Lemma script_text_witness :
  script_text (FdiskScript Logical 5 "" (nl +:+ "+50M")) =
  script_text (FdiskScript Logical 5 nl "+50M") /\
  fs_kind (FdiskScript Logical 5 "" (nl +:+ "+50M")) =
  fs_kind (FdiskScript Logical 5 nl "+50M") /\
  fs_slot (FdiskScript Logical 5 "" (nl +:+ "+50M")) =
  fs_slot (FdiskScript Logical 5 nl "+50M").
Proof.
  assert (script_text (FdiskScript Logical 5 "" (nl +:+ "+50M")) =
          script_text (FdiskScript Logical 5 nl "+50M")) as H
    by reflexivity.
  split; [exact H|].
  exact (script_text_determines_kind_and_slot _ _ H).
Defined.

Lemma tmp_path_inj i j : tmp_path i = tmp_path j -> i = j.
Proof.
  unfold tmp_path. intros H. simpl in H. inversion H as [Heq].
  by apply (inj pretty).
Defined.

Lemma script_files_witness :
  script_files
    (trace (world
       (create_all fdisk_always_fails tmp_path (end_to_end ++ end_to_end)
          (fresh "/dev/sda" (PInt 2048) true)).2)) =
  ["/tmp/kiwi_fdisk_0"; "/tmp/kiwi_fdisk_1"; "/tmp/kiwi_fdisk_2";
   "/tmp/kiwi_fdisk_3"; "/tmp/kiwi_fdisk_4"; "/tmp/kiwi_fdisk_5";
   "/tmp/kiwi_fdisk_6"] /\
  NoDup
    (script_files
       (trace (world
          (create_all fdisk_always_fails tmp_path (end_to_end ++ end_to_end)
             (fresh "/dev/sda" (PInt 2048) true)).2))).
Proof.
  split; [vm_compute; reflexivity|].
  exact (proj2 (proj2 (proj2
           (each_script_has_its_own_file_and_fdisk_run fdisk_always_fails
              tmp_path "/dev/sda" (PInt 2048) true
              (end_to_end ++ end_to_end))))
           tmp_path_inj).
Defined.

Lemma flags_before_unknown_flag_witness :
  flag_commands_succeed always_succeeds /\
  (create always_succeeds tmp_path "boot" (PInt 50) "t.linux"
     ["f.active"; "f.bogus"; "t.lvm"] (fresh "/dev/sda" PNone false)).1 =
    Raise (KiwiPartitionerMsDosFlagError "Unknown partition flag f.bogus") /\
  set_flag_calls
    (world
       (create always_succeeds tmp_path "boot" (PInt 50) "t.linux"
          ["f.active"; "f.bogus"; "t.lvm"]
          (fresh "/dev/sda" PNone false)).2) =
    [(1, "t.linux"); (1, "f.active"); (1, "f.bogus")] /\
  flag_commands
    (trace (world
       (create always_succeeds tmp_path "boot" (PInt 50) "t.linux"
          ["f.active"; "f.bogus"; "t.lvm"]
          (fresh "/dev/sda" PNone false)).2)) =
    [sfdisk_argv "/dev/sda" 1 (PStr "83"); parted_argv "/dev/sda" 1].
Proof.
  split; [exact always_succeeds_good|].
  destruct (flags_before_unknown_flag_stay_applied always_succeeds tmp_path
              always_succeeds_good "boot" (PInt 50) "t.linux"
              ["f.active"; "f.bogus"; "t.lvm"]
              (fresh "/dev/sda" PNone false)
              ["t.linux"; "f.active"] "f.bogus" ["t.lvm"] eq_refl)
    as (Ho & _ & Hc & Hf).
  - repeat constructor; eexists; vm_compute; reflexivity.
  - vm_compute. reflexivity.
  - split; [exact Ho|]. split; [exact Hc|exact Hf].
Defined.

Lemma extended_layout_is_simple_witness :
  (length end_to_end <= 3)%nat /\
  (create_all always_succeeds tmp_path end_to_end
     (fresh "/dev/sda" (PInt 2048) true)).1 =
  (create_all always_succeeds tmp_path end_to_end
     (fresh "/dev/sda" (PInt 2048) false)).1 /\
  world (create_all always_succeeds tmp_path end_to_end
           (fresh "/dev/sda" (PInt 2048) true)).2 =
  world (create_all always_succeeds tmp_path end_to_end
           (fresh "/dev/sda" (PInt 2048) false)).2.
Proof.
  assert (length end_to_end <= 3)%nat as H by (simpl; lia).
  split; [exact H|].
  destruct (extended_layout_is_simple_up_to_three_requests always_succeeds
              tmp_path "/dev/sda" (PInt 2048) end_to_end H)
    as (H1 & H2 & _).
  split; [exact H1|exact H2].
Defined.
